(** * ChickenCoopAI: the climate and growth calculations

    A shallow embedding of the shared calculations module
    ([calculateInsideTemperature], [generateRecommendations],
    [calculateGrowthProjections]), of the constants it reads
    ([AGE_TARGETS], [EQUIPMENT_SPECS]) and of the two equipment reductions
    that the [/api/calculate-environment] route repeats with other formulas.
    Around them: the other exports of the calculations module
    ([calculateDensity], [calculateConsumptionTargets]), the in-memory
    store ([MemStorage]) for farms, flocks, equipment, feed and water and
    mortality records, the handlers of [/api/calculate-environment] and
    [/api/equipment/:id], and the client code that consumes their answers
    ([applyAISuggestions], the growth panel, the temperature gauge).

    Numbers.  A JavaScript [number] is read as an exact rational ([Q]): a
    decimal literal denotes the rational it spells, [+ - * /] are the field
    operations, and the comparisons are the order of [Q].  Rounding error,
    infinities and NaN are outside this model; in particular the model's
    division agrees with the source only for a non-zero divisor.  Equality
    of two numbers is [Qeq] ([==]).  Where a property turns on the rounding
    of the source's doubles, the steps concerned are embedded a second time
    over binary64 floats ([Double]). *)

From Stdlib Require Import QArith Qround Qminmax ZArith List String Bool Lia Lqa.
From Stdlib Require Floats.PrimFloat.
Import ListNotations.
Open Scope Q_scope.

(** ** The host's number operations *)

Module Js.

(** [x < y], [x > y], [x <= y], [x >= y] as the tests of an [if]. *)
Definition le (x y : Q) : bool := Qle_bool x y.
Definition lt (x y : Q) : bool := negb (Qle_bool y x).
Definition ge (x y : Q) : bool := le y x.
Definition gt (x y : Q) : bool := lt y x.

(** [Math.floor] and [Math.round]; the latter rounds a half upwards. *)
Definition Math_floor (x : Q) : Z := Qfloor x.
Definition Math_round (x : Q) : Z := Qfloor (x + (1 # 2)).

Definition Math_min (x y : Q) : Q := Qmin x y.
Definition Math_max (x y : Q) : Q := Qmax x y.

(** [Math.PI]: the double nearest to pi, which is this rational. *)
Definition Math_PI : Q := 884279719003555 # 281474976710656.

(** [x || d] for an optional number: [undefined], [null] and [0] give [d]. *)
Definition or_num (x : option Q) (d : Q) : Q :=
  match x with
  | Some v => if Qeq_bool v 0 then d else v
  | None => d
  end.

(** Truthiness of an optional boolean. *)
Definition truthy (b : option bool) : bool :=
  match b with
  | Some true => true
  | _ => false
  end.

End Js.

(** ** shared/schema.ts: the rows the calculations read

    Timestamps ([createdAt], [batchDate]) play no part and are left out. *)

Module Farm.
Record t := mk {
  id : string;
  name : string;
  length : Q;
  width : Q;
  height : Q
}.
End Farm.

Module Specification.
Record t := mk {
  diameter : option Q;
  power : option Q;
  surface : option Q
}.
End Specification.

Module Equipment.
Record t := mk {
  id : string;
  farmId : option string;
  type : string;
  name : string;
  specification : option Specification.t;
  isActive : option bool;
  currentSetting : option Q
}.

(** [eq.specification?.f]: absent when the specification is. *)
Definition spec_field (f : Specification.t -> option Q) (eq : t) : option Q :=
  match specification eq with
  | Some s => f s
  | None => None
  end.
End Equipment.

Module Flock.
Record t := mk {
  id : string;
  farmId : option string;
  name : string;
  chickCount : Z;
  initialChickCount : Z;
  currentAge : Z;
  averageWeight : Q
}.
End Flock.

(** ** constants.ts *)

Module Targets.
Record t := mk {
  tempMin : Q;
  tempMax : Q;
  humidity : Q;
  ventilation : Q
}.
End Targets.

Definition AGE_TARGETS : list (Z * Targets.t) :=
  [ (0%Z,  Targets.mk 32 35 60 20);
    (7%Z,  Targets.mk 29 32 60 25);
    (14%Z, Targets.mk 27 30 65 30);
    (21%Z, Targets.mk 24 27 65 35);
    (28%Z, Targets.mk 21 24 70 40);
    (35%Z, Targets.mk 18 21 70 45) ].

(** [AGE_TARGETS[key]]: the entry under [key], or [undefined]. *)
Fixpoint lookup_targets (table : list (Z * Targets.t)) (key : Z) : option Targets.t :=
  match table with
  | [] => None
  | (k, v) :: rest => if (k =? key)%Z then Some v else lookup_targets rest key
  end.

(** [AGE_TARGETS[35]], which the table holds. *)
Definition AGE_TARGETS_35 : Targets.t := Targets.mk 18 21 70 45.

Module EQUIPMENT_SPECS.
Module fan.
Definition airflowFactor : Q := 0.85.
Definition powerFactor : Q := 0.02.
End fan.
Module heater.
Definition efficiencyFactor : Q := 0.8.
Definition temperatureRise : Q := 0.5.
End heater.
Module inlet.
Definition velocityFactor : Q := 2.5.
Definition coolingFactor : Q := 0.1.
End inlet.
End EQUIPMENT_SPECS.

(** ** calculations.ts: advisories *)

Inductive Severity := warning | info | success.

(** The message templates, each with the numbers it prints. *)
Inductive Message :=
| MsgTemperatureBelow (insideTemp diff tempMin tempMax : Q)
| MsgTemperatureAbove (insideTemp diff tempMin tempMax : Q)
| MsgTemperatureOptimal (insideTemp age : Q)
| MsgHumidityLow (insideHumidity : Q)
| MsgHumidityHigh (insideHumidity : Q)
| MsgText (text : string).

Module Recommendation.
Record t := mk {
  type : Severity;
  title : string;
  message : Message;
  action : string
}.
End Recommendation.

Module EnvironmentalCalculation.
Record t := mk {
  insideTemp : Q;
  insideHumidity : Q;
  totalHeating : Q;
  totalCooling : Q;
  ventilationEffect : Q;
  recommendations : list Recommendation.t;
  volume : Q;
  surfaceArea : Q
}.
End EnvironmentalCalculation.


(** ** calculations.ts: [generateRecommendations] *)

Definition is_active_of (kind : string) (eq : Equipment.t) : bool :=
  (Equipment.type eq =? kind)%string && Js.truthy (Equipment.isActive eq).

(** [AGE_TARGETS[ageKey] || AGE_TARGETS[35]] with
    [ageKey = Math.floor(age / 7) * 7]. *)
Definition ageKey (age : Q) : Z := (Js.Math_floor (age / 7) * 7)%Z.

Definition targets_for (age : Q) : Targets.t :=
  match lookup_targets AGE_TARGETS (ageKey age) with
  | Some t => t
  | None => AGE_TARGETS_35
  end.

(** The five blocks of the function body, each giving what it pushes. *)

Definition temperature_block (targets : Targets.t) (insideTemp age : Q)
  : list Recommendation.t :=
  if Js.lt insideTemp (Targets.tempMin targets) then
    let diff := Targets.tempMin targets - insideTemp in
    [ Recommendation.mk warning "Temperature Below Target"
        (MsgTemperatureBelow insideTemp diff
           (Targets.tempMin targets) (Targets.tempMax targets))
        "temperature_low" ]
  else if Js.gt insideTemp (Targets.tempMax targets) then
    let diff := insideTemp - Targets.tempMax targets in
    [ Recommendation.mk warning "Temperature Above Target"
        (MsgTemperatureAbove insideTemp diff
           (Targets.tempMin targets) (Targets.tempMax targets))
        "temperature_high" ]
  else
    [ Recommendation.mk success "Temperature Optimal"
        (MsgTemperatureOptimal insideTemp age)
        "temperature_good" ].

Definition humidity_block (targets : Targets.t) (insideHumidity : Q)
  : list Recommendation.t :=
  if Js.lt insideHumidity (Targets.humidity targets - 10) then
    [ Recommendation.mk info "Humidity Low"
        (MsgHumidityLow insideHumidity) "humidity_low" ]
  else if Js.gt insideHumidity (Targets.humidity targets + 15) then
    [ Recommendation.mk info "Humidity High"
        (MsgHumidityHigh insideHumidity) "humidity_high" ]
  else [].

Definition energy_block (targets : Targets.t) (insideTemp totalHeating : Q)
  : list Recommendation.t :=
  if Js.gt totalHeating 10 && Js.gt insideTemp (Targets.tempMax targets) then
    [ Recommendation.mk info "Energy Optimization"
        (MsgText "Reduce heater output by 15-20% to save energy while maintaining optimal temperature.")
        "optimize_energy" ]
  else [].

Definition fans_block (targets : Targets.t) (insideTemp : Q)
  (activeFans : list Equipment.t) : list Recommendation.t :=
  if (1 <? List.length activeFans)%nat
     && Js.ge insideTemp (Targets.tempMin targets)
     && Js.le insideTemp (Targets.tempMax targets) then
    [ Recommendation.mk info "Equipment Optimization"
        (MsgText "Consider running fewer fans at higher speed for better energy efficiency.")
        "optimize_fans" ]
  else [].

Definition heating_block (targets : Targets.t) (insideTemp : Q)
  (activeHeaters : list Equipment.t) : list Recommendation.t :=
  if (List.length activeHeaters =? 0)%nat
     && Js.lt insideTemp (Targets.tempMin targets - 2) then
    [ Recommendation.mk warning "Heating Required"
        (MsgText "Temperature is critically low. Activate heaters immediately.")
        "activate_heating" ]
  else [].

Definition generateRecommendations
  (insideTemp insideHumidity age totalHeating totalCooling : Q)
  (equipment : list Equipment.t) : list Recommendation.t :=
  let targets := targets_for age in
  let recommendations := [] in
  let recommendations := recommendations ++ temperature_block targets insideTemp age in
  let recommendations := recommendations ++ humidity_block targets insideHumidity in
  let recommendations := recommendations ++ energy_block targets insideTemp totalHeating in
  let activeFans := filter (is_active_of "fan") equipment in
  let activeHeaters := filter (is_active_of "heater") equipment in
  let recommendations := recommendations ++ fans_block targets insideTemp activeFans in
  let recommendations := recommendations ++ heating_block targets insideTemp activeHeaters in
  recommendations.

(** ** calculations.ts: [calculateInsideTemperature]

    The local constants of the function body, in its order; each is a
    function of the arguments it is computed from. *)

Module Sim.

Definition volume (farm : Farm.t) : Q :=
  Farm.length farm * Farm.width farm * Farm.height farm.

Definition surfaceArea (farm : Farm.t) : Q :=
  2 * (Farm.length farm * Farm.width farm
       + Farm.length farm * Farm.height farm
       + Farm.width farm * Farm.height farm).

Definition activeHeaters (equipment : list Equipment.t) : list Equipment.t :=
  filter (is_active_of "heater") equipment.

Definition totalHeating (equipment : list Equipment.t) : Q :=
  fold_left
    (fun sum heater =>
       let power := Js.or_num (Equipment.spec_field Specification.power heater) 0 in
       let setting := Js.or_num (Equipment.currentSetting heater) 0 in
       sum + (power * setting / 100))
    (activeHeaters equipment) 0.

Definition heatingEffect (farm : Farm.t) (equipment : list Equipment.t) : Q :=
  totalHeating equipment * EQUIPMENT_SPECS.heater.efficiencyFactor
  * EQUIPMENT_SPECS.heater.temperatureRise / (volume farm / 100).

(** The running [insideTemp] after [insideTemp += heatingEffect]. *)
Definition insideTemp_heated (farm : Farm.t) (equipment : list Equipment.t)
  (outsideTemp : Q) : Q :=
  outsideTemp + heatingEffect farm equipment.

Definition activeFans (equipment : list Equipment.t) : list Equipment.t :=
  filter (is_active_of "fan") equipment.

Definition totalCooling (equipment : list Equipment.t) : Q :=
  fold_left
    (fun sum fan =>
       let diameter := Js.or_num (Equipment.spec_field Specification.diameter fan) 0 in
       let setting := Js.or_num (Equipment.currentSetting fan) 0 in
       let airflow := diameter * EQUIPMENT_SPECS.fan.airflowFactor * setting / 100 in
       sum + airflow)
    (activeFans equipment) 0.

Definition coolingEffect (farm : Farm.t) (equipment : list Equipment.t)
  (outsideTemp : Q) : Q :=
  let insideTemp := insideTemp_heated farm equipment outsideTemp in
  Js.Math_min
    (totalCooling equipment * 0.001 * Js.Math_max (insideTemp - outsideTemp) 0
     / volume farm)
    (insideTemp - outsideTemp).

(** The running [insideTemp] after [insideTemp -= coolingEffect]. *)
Definition insideTemp_cooled (farm : Farm.t) (equipment : list Equipment.t)
  (outsideTemp : Q) : Q :=
  insideTemp_heated farm equipment outsideTemp
  - coolingEffect farm equipment outsideTemp.

Definition inlets (equipment : list Equipment.t) : list Equipment.t :=
  filter (fun eq => (Equipment.type eq =? "inlet")%string) equipment.

Definition ventilationEffect (equipment : list Equipment.t) (windSpeed : Q) : Q :=
  fold_left
    (fun sum inlet =>
       let surface := Js.or_num (Equipment.spec_field Specification.surface inlet) 0 in
       let opening := Js.or_num (Equipment.currentSetting inlet) 0 in
       let velocity := opening * EQUIPMENT_SPECS.inlet.velocityFactor / 100 in
       let coolingFromVentilation :=
         velocity * EQUIPMENT_SPECS.inlet.coolingFactor * windSpeed * 0.1 in
       sum + coolingFromVentilation)
    (inlets equipment) 0.

(** The running [insideTemp] after [insideTemp -= ventilationEffect]: the
    value the humidity test and the recommendations see. *)
Definition insideTemp_final (farm : Farm.t) (equipment : list Equipment.t)
  (outsideTemp windSpeed : Q) : Q :=
  insideTemp_cooled farm equipment outsideTemp
  - ventilationEffect equipment windSpeed.

Definition insideHumidity (farm : Farm.t) (equipment : list Equipment.t)
  (outsideTemp outsideHumidity windSpeed : Q) : Q :=
  let insideTemp := insideTemp_final farm equipment outsideTemp windSpeed in
  let insideHumidity := outsideHumidity in
  if Js.gt insideTemp outsideTemp then
    let insideHumidity :=
      insideHumidity * ((outsideTemp + 273.15) / (insideTemp + 273.15)) in
    Js.Math_min 100 (Js.Math_max 30 insideHumidity)
  else insideHumidity.

End Sim.

(** [Math.round(x * 10) / 10]. *)
Definition round1 (x : Q) : Q := inject_Z (Js.Math_round (x * 10)) / 10.

Definition calculateInsideTemperature (farm : Farm.t)
  (equipment : list Equipment.t)
  (outsideTemp outsideHumidity windSpeed : Q) (flockAge : option Q)
  : EnvironmentalCalculation.t :=
  let volume := Sim.volume farm in
  let surfaceArea := Sim.surfaceArea farm in
  let totalHeating := Sim.totalHeating equipment in
  let totalCooling := Sim.totalCooling equipment in
  let ventilationEffect := Sim.ventilationEffect equipment windSpeed in
  let insideTemp := Sim.insideTemp_final farm equipment outsideTemp windSpeed in
  let insideHumidity :=
    Sim.insideHumidity farm equipment outsideTemp outsideHumidity windSpeed in
  let recommendations :=
    generateRecommendations insideTemp insideHumidity (Js.or_num flockAge 18)
      totalHeating totalCooling equipment in
  EnvironmentalCalculation.mk
    (round1 insideTemp)
    (round1 insideHumidity)
    totalHeating
    totalCooling
    (round1 ventilationEffect)
    recommendations
    volume
    (round1 surfaceArea).


(** ** calculations.ts: [calculateGrowthProjections] *)

Module GrowthProjection.
Record t := mk {
  projectedWeight7d : Q;
  projectedWeight14d : Q;
  growthRateVsStandard : Q;
  fcr : Q;
  environmentalFactor : Q
}.
End GrowthProjection.

(** [recommendations.some(r => r.action === 'temperature_good')]. *)
Definition hasGoodTemp (recommendations : list Recommendation.t) : bool :=
  existsb (fun r => (Recommendation.action r =? "temperature_good")%string)
    recommendations.

Module Growth.

Definition baseGrowthRate (currentAge : Z) : Q :=
  Js.Math_max 10 (50 - inject_Z currentAge * 0.8).

Definition environmentalFactor (recommendations : list Recommendation.t) : Q :=
  let environmentalFactor := 1.0 in
  if negb (hasGoodTemp recommendations) then environmentalFactor * 0.85
  else environmentalFactor.

Definition projectedWeight (flock : Flock.t)
  (recommendations : list Recommendation.t) (days : Q) : Q :=
  Flock.averageWeight flock
  + (baseGrowthRate (Flock.currentAge flock)
     * environmentalFactor recommendations * days).

Definition fcr (flock : Flock.t) (recommendations : list Recommendation.t) : Q :=
  1.2 + (inject_Z (Flock.currentAge flock) * 0.01)
  + (if hasGoodTemp recommendations then 0 else 0.2).

End Growth.

Section GrowthProjections.

(** [Math.pow] at the exponent 1.5 has no rational value in general: the
    host's function is taken as given. *)
Variable Math_pow : Q -> Q -> Q.

Definition getStandardWeight (age : Q) : Q :=
  40 + (age * 20) + Math_pow age 1.5 * 2.

Definition calculateGrowthProjections (flock : Flock.t)
  (currentEnvironment : EnvironmentalCalculation.t) : GrowthProjection.t :=
  let currentAge := Flock.currentAge flock in
  let averageWeight := Flock.averageWeight flock in
  let recommendations :=
    EnvironmentalCalculation.recommendations currentEnvironment in
  let environmentalFactor := Growth.environmentalFactor recommendations in
  let projectedWeight7d := Growth.projectedWeight flock recommendations 7 in
  let projectedWeight14d := Growth.projectedWeight flock recommendations 14 in
  let standardWeight := getStandardWeight (inject_Z currentAge) in
  let growthRateVsStandard := ((averageWeight / standardWeight) - 1) * 100 in
  let fcr := Growth.fcr flock recommendations in
  GrowthProjection.mk
    (inject_Z (Js.Math_round projectedWeight7d))
    (inject_Z (Js.Math_round projectedWeight14d))
    (inject_Z (Js.Math_round (growthRateVsStandard * 10)) / 10)
    (inject_Z (Js.Math_round (fcr * 100)) / 100)
    (inject_Z (Js.Math_round (environmentalFactor * 100)) / 100).

End GrowthProjections.

(** ** routes.ts: the reductions of [/api/calculate-environment]

    The handler repeats the simulator's steps with its own formulas; these
    are its fan and inlet reductions.  [Math.pow(x, 2)] is the square. *)

Module Routes.

Definition totalCooling (equipment : list Equipment.t) : Q :=
  fold_left
    (fun sum fan =>
       let diameter := Js.or_num (Equipment.spec_field Specification.diameter fan) 0 in
       let setting := Js.or_num (Equipment.currentSetting fan) 0 in
       let airflow := Js.Math_PI * (diameter / 200) ^ 2 * setting * 50 in
       sum + airflow)
    (filter (is_active_of "fan") equipment) 0.

Definition ventilationEffect (equipment : list Equipment.t) (windSpeed : Q) : Q :=
  fold_left
    (fun sum inlet =>
       let surface := Js.or_num (Equipment.spec_field Specification.surface inlet) 0 in
       let opening := Js.or_num (Equipment.currentSetting inlet) 0 in
       sum + (surface * opening / 100 * windSpeed * 0.1))
    (filter (fun eq => (Equipment.type eq =? "inlet")%string) equipment) 0.

End Routes.

(** ** Sample rows *)

Definition fan_row (diameter setting : Q) (active : bool) : Equipment.t :=
  Equipment.mk "e-fan" None "fan" "Fan"
    (Some (Specification.mk (Some diameter) None None))
    (Some active) (Some setting).

Definition heater_row (power setting : Q) (active : bool) : Equipment.t :=
  Equipment.mk "e-heater" None "heater" "Heater"
    (Some (Specification.mk None (Some power) None))
    (Some active) (Some setting).

Definition inlet_row (surface setting : Q) (active : bool) : Equipment.t :=
  Equipment.mk "e-inlet" None "inlet" "Inlet"
    (Some (Specification.mk None None (Some surface)))
    (Some active) (Some setting).

Definition sample_farm : Farm.t := Farm.mk "f-1" "House 1" 24 12 3.5.

Definition sample_flock (age : Z) (weight : Q) : Flock.t :=
  Flock.mk "k-1" None "Batch" 1000 1000 age weight.

(** ** Vocabulary of the properties *)

Definition actions (recommendations : list Recommendation.t) : list string :=
  map Recommendation.action recommendations.

Definition count_code (code : string) (recommendations : list Recommendation.t) : nat :=
  count_occ string_dec (actions recommendations) code.

Definition is_temperature_code (code : string) : bool :=
  (code =? "temperature_low")%string
  || (code =? "temperature_high")%string
  || (code =? "temperature_good")%string.

(** A row whose heater power, fan diameter and setting, read with their
    [|| 0] defaults, are not negative. *)
Definition nonnegative_row (eq : Equipment.t) : Prop :=
  0 <= Js.or_num (Equipment.spec_field Specification.power eq) 0
  /\ 0 <= Js.or_num (Equipment.spec_field Specification.diameter eq) 0
  /\ 0 <= Js.or_num (Equipment.currentSetting eq) 0.

(** The ventilation sum as the specification words it: each inlet gives
    [(surface * velocityFactor / 100 * setting) * coolingFactor * windSpeed
    * 0.1]. *)
Definition spec_ventilationEffect (equipment : list Equipment.t)
  (windSpeed : Q) : Q :=
  fold_left
    (fun sum inlet =>
       let surface := Js.or_num (Equipment.spec_field Specification.surface inlet) 0 in
       let setting := Js.or_num (Equipment.currentSetting inlet) 0 in
       sum + (surface * EQUIPMENT_SPECS.inlet.velocityFactor / 100 * setting)
             * EQUIPMENT_SPECS.inlet.coolingFactor * windSpeed * 0.1)
    (Sim.inlets equipment) 0.

(** The row with its [surface] replaced. *)
Definition with_surface (surface : option Q) (eq : Equipment.t) : Equipment.t :=
  Equipment.mk (Equipment.id eq) (Equipment.farmId eq) (Equipment.type eq)
    (Equipment.name eq)
    (Some (Specification.mk
             (Equipment.spec_field Specification.diameter eq)
             (Equipment.spec_field Specification.power eq)
             surface))
    (Equipment.isActive eq) (Equipment.currentSetting eq).

(** A stand-in for the host's [Math.pow] where a sample needs one; the
    properties below hold for any. *)
Definition sample_pow (base exponent : Q) : Q := base * 6.5.

(** ** calculations.ts: [calculateDensity], [calculateConsumptionTargets] *)



Module ConsumptionTargets.
Record t := mk {
  feed : Q;
  water : Q
}.
End ConsumptionTargets.

(** [array[i]] for a whole index: [undefined] outside the array. *)
Definition array_get (array : list Q) (i : Z) : option Q :=
  if (i <? 0)%Z then None else nth_error array (Z.to_nat i).

Module Consumption.

(** The two fields of the local [baseTargets]. *)
Definition baseFeed (age : Q) : Q :=
  let ageKey := ageKey age in
  Js.or_num
    (array_get [20; 35; 55; 80; 110; 150] (Js.Math_floor (inject_Z ageKey / 7)))
    150.

Definition baseWater (age : Q) : Q :=
  let ageKey := ageKey age in
  Js.or_num
    (array_get [50; 85; 140; 200; 280; 380] (Js.Math_floor (inject_Z ageKey / 7)))
    380.

End Consumption.


(** constants.ts: [CONSUMPTION_TARGETS], per 1000 birds. *)
Module CONSUMPTION_TARGETS.
Definition feed : list (Z * Q) :=
  [ (0%Z, 20); (7%Z, 35); (14%Z, 55); (21%Z, 80); (28%Z, 110); (35%Z, 150) ].
Definition water : list (Z * Q) :=
  [ (0%Z, 50); (7%Z, 85); (14%Z, 140); (21%Z, 200); (28%Z, 280); (35%Z, 380) ].
End CONSUMPTION_TARGETS.

(** [table[key]] on a number-keyed object. *)
Fixpoint lookup_number (table : list (Z * Q)) (key : Z) : option Q :=
  match table with
  | [] => None
  | (k, v) :: rest => if (k =? key)%Z then Some v else lookup_number rest key
  end.

(** The sum a [reduce((sum, x) => sum + g(x), 0)] computes. *)
Definition sum_of {A : Type} (g : A -> Q) (rows : list A) : Q :=
  fold_left (fun sum x => sum + g x) rows 0.

(** Whether an advisory with this action code is in the list. *)
Definition has_code (code : string) (recommendations : list Recommendation.t) : bool :=
  existsb (fun r => (Recommendation.action r =? code)%string) recommendations.

(** A row the simulator has no use for: neither an active heater nor an
    active fan nor an inlet. *)
Definition idle_row (eq : Equipment.t) : bool :=
  negb (is_active_of "heater" eq)
  && negb (is_active_of "fan" eq)
  && negb (Equipment.type eq =? "inlet")%string.

(** ** server/storage.ts: [MemStorage]

    A [Map] keeps its entries in insertion order: [set] on a present key
    replaces the value where it stands, on an absent key appends.  The
    methods are [async] but never suspend inside their bodies, so each is
    one step on the store.  [randomUUID()] is the [id] argument of the
    creating methods.  The readings and the checklists are left out. *)

Module JsMap.
Section Entries.
Context {V : Type}.

Definition t : Type := list (string * V).

Fixpoint get (m : t) (key : string) : option V :=
  match m with
  | [] => None
  | (k, v) :: rest => if (k =? key)%string then Some v else get rest key
  end.

Definition has (m : t) (key : string) : bool :=
  match get m key with
  | Some _ => true
  | None => false
  end.

Fixpoint set (m : t) (key : string) (value : V) : t :=
  match m with
  | [] => [(key, value)]
  | (k, v) :: rest =>
      if (k =? key)%string then (k, value) :: rest
      else (k, v) :: set rest key value
  end.

(** [m.delete(key)]: whether the key was there, and the map without it. *)
Definition delete (m : t) (key : string) : bool * t :=
  (has m key, filter (fun entry => negb (fst entry =? key)%string) m).

Definition keys (m : t) : list string := map fst m.
Definition values (m : t) : list V := map snd m.

End Entries.
Arguments t : clear implicits.
End JsMap.

Module InsertEquipment.
Record t := mk {
  farmId : option string;
  type : string;
  name : string;
  specification : option Specification.t;
  isActive : option bool;
  currentSetting : option Q
}.
End InsertEquipment.

(** [updateEquipmentSchema]'s output: an absent key is [None]. *)
Module UpdateEquipment.
Record t := mk {
  isActive : option bool;
  currentSetting : option Q
}.
End UpdateEquipment.

Module InsertFlock.
Record t := mk {
  farmId : option string;
  name : string;
  chickCount : Z;
  initialChickCount : Z;
  currentAge : Z;
  averageWeight : Q
}.
End InsertFlock.

Module InsertMortality.
Record t := mk {
  flockId : option string;
  deathCount : Z;
  cause : option string;
  date : option string
}.
End InsertMortality.

Module MortalityRecord.
Record t := mk {
  id : string;
  flockId : option string;
  deathCount : Z;
  cause : option string;
  date : option string
}.
End MortalityRecord.

Module InsertFeedWater.
Record t := mk {
  flockId : option string;
  type : string;
  amount : Q;
  date : option string
}.
End InsertFeedWater.

Module FeedWaterRecord.
Record t := mk {
  id : string;
  flockId : option string;
  type : string;
  amount : Q;
  date : option string
}.
End FeedWaterRecord.

(** [x === s] for an optional string [x] and a string [s]. *)
Definition is_string (x : option string) (s : string) : bool :=
  match x with
  | Some v => (v =? s)%string
  | None => false
  end.

Module MemStorage.

Record t := mk {
  farms : JsMap.t Farm.t;
  flocks : JsMap.t Flock.t;
  equipment : JsMap.t Equipment.t;
  feedWaterRecords : JsMap.t FeedWaterRecord.t;
  mortalityRecords : JsMap.t MortalityRecord.t
}.

Definition empty : t := mk [] [] [] [] [].

Definition with_flocks (st : t) (flocks : JsMap.t Flock.t) : t :=
  mk (farms st) flocks (equipment st) (feedWaterRecords st) (mortalityRecords st).

Definition with_equipment (st : t) (equipment : JsMap.t Equipment.t) : t :=
  mk (farms st) (flocks st) equipment (feedWaterRecords st) (mortalityRecords st).

Definition with_feedWaterRecords (st : t)
  (records : JsMap.t FeedWaterRecord.t) : t :=
  mk (farms st) (flocks st) (equipment st) records (mortalityRecords st).

Definition with_mortalityRecords (st : t)
  (records : JsMap.t MortalityRecord.t) : t :=
  mk (farms st) (flocks st) (equipment st) (feedWaterRecords st) records.

Definition getFarm (st : t) (id : string) : option Farm.t :=
  JsMap.get (farms st) id.

Definition getFarms (st : t) : list Farm.t := JsMap.values (farms st).

Definition getFlock (st : t) (id : string) : option Flock.t :=
  JsMap.get (flocks st) id.

Definition getFlocksByFarm (st : t) (farmId : string) : list Flock.t :=
  filter (fun f => is_string (Flock.farmId f) farmId) (JsMap.values (flocks st)).

Definition createFlock (st : t) (id : string) (insertFlock : InsertFlock.t)
  : t * Flock.t :=
  let flock :=
    Flock.mk id (InsertFlock.farmId insertFlock) (InsertFlock.name insertFlock)
      (InsertFlock.chickCount insertFlock)
      (InsertFlock.initialChickCount insertFlock)
      (InsertFlock.currentAge insertFlock)
      (InsertFlock.averageWeight insertFlock) in
  (with_flocks st (JsMap.set (flocks st) id flock), flock).

Definition getEquipment (st : t) (id : string) : option Equipment.t :=
  JsMap.get (equipment st) id.

Definition getEquipmentByFarm (st : t) (farmId : string) : list Equipment.t :=
  filter (fun e => is_string (Equipment.farmId e) farmId)
    (JsMap.values (equipment st)).

Definition createEquipment (st : t) (id : string)
  (insertEquipment : InsertEquipment.t) : t * Equipment.t :=
  let equipment :=
    Equipment.mk id (InsertEquipment.farmId insertEquipment)
      (InsertEquipment.type insertEquipment)
      (InsertEquipment.name insertEquipment)
      (InsertEquipment.specification insertEquipment)
      (InsertEquipment.isActive insertEquipment)
      (InsertEquipment.currentSetting insertEquipment) in
  (with_equipment st (JsMap.set (MemStorage.equipment st) id equipment), equipment).

(** [{ ...equipment, ...data }]: a key present in [data] wins. *)
Definition merge_update (equipment : Equipment.t) (data : UpdateEquipment.t)
  : Equipment.t :=
  Equipment.mk (Equipment.id equipment) (Equipment.farmId equipment)
    (Equipment.type equipment) (Equipment.name equipment)
    (Equipment.specification equipment)
    (match UpdateEquipment.isActive data with
     | Some b => Some b
     | None => Equipment.isActive equipment
     end)
    (match UpdateEquipment.currentSetting data with
     | Some s => Some s
     | None => Equipment.currentSetting equipment
     end).

Definition updateEquipment (st : t) (id : string) (data : UpdateEquipment.t)
  : t * option Equipment.t :=
  match JsMap.get (equipment st) id with
  | None => (st, None)
  | Some equipment =>
      let updated := merge_update equipment data in
      (with_equipment st (JsMap.set (MemStorage.equipment st) id updated),
       Some updated)
  end.

Definition deleteEquipment (st : t) (id : string) : t * bool :=
  let (deleted, rest) := JsMap.delete (equipment st) id in
  (with_equipment st rest, deleted).

Definition createFeedWaterRecord (st : t) (id : string)
  (insertRecord : InsertFeedWater.t) : t * FeedWaterRecord.t :=
  let record :=
    FeedWaterRecord.mk id (InsertFeedWater.flockId insertRecord)
      (InsertFeedWater.type insertRecord)
      (InsertFeedWater.amount insertRecord)
      (InsertFeedWater.date insertRecord) in
  (with_feedWaterRecords st (JsMap.set (feedWaterRecords st) id record), record).

(** [flocks.values().find(f => f.id === flockId)] followed by the write to
    the object found: the entry is changed where it stands. *)
Fixpoint mutate_found (flockId : option string) (change : Flock.t -> Flock.t)
  (m : JsMap.t Flock.t) : option Flock.t * JsMap.t Flock.t :=
  match m with
  | [] => (None, [])
  | (k, f) :: rest =>
      if is_string flockId (Flock.id f) then
        (Some (change f), (k, change f) :: rest)
      else
        let (found, rest') := mutate_found flockId change rest in
        (found, (k, f) :: rest')
  end.

Definition createMortalityRecord (st : t) (id : string)
  (insertRecord : InsertMortality.t) : t * MortalityRecord.t :=
  let record :=
    MortalityRecord.mk id (InsertMortality.flockId insertRecord)
      (InsertMortality.deathCount insertRecord)
      (InsertMortality.cause insertRecord)
      (InsertMortality.date insertRecord) in
  let st := with_mortalityRecords st (JsMap.set (mortalityRecords st) id record) in
  let (found, flocks) :=
    mutate_found (InsertMortality.flockId insertRecord)
      (fun flock =>
         Flock.mk (Flock.id flock) (Flock.farmId flock) (Flock.name flock)
           (Z.max 0 (Flock.chickCount flock - InsertMortality.deathCount insertRecord))
           (Flock.initialChickCount flock) (Flock.currentAge flock)
           (Flock.averageWeight flock))
      (MemStorage.flocks st) in
  match found with
  | Some flock => (with_flocks st (JsMap.set flocks (Flock.id flock) flock), record)
  | None => (st, record)
  end.

Section Today.

(** [new Date(d).toDateString()] for a stored date, absent or not, and
    [today.toDateString()]: both are the host's. *)
Variable toDateString : option string -> string.
Variable today : string.

Definition getTodaysConsumption (st : t) (flockId : string) : Q * Q :=
  let todayRecords :=
    filter (fun r => is_string (FeedWaterRecord.flockId r) flockId
                     && (toDateString (FeedWaterRecord.date r) =? today)%string)
      (JsMap.values (feedWaterRecords st)) in
  let feed :=
    fold_left (fun sum r => sum + FeedWaterRecord.amount r)
      (filter (fun r => (FeedWaterRecord.type r =? "feed")%string) todayRecords) 0 in
  let water :=
    fold_left (fun sum r => sum + FeedWaterRecord.amount r)
      (filter (fun r => (FeedWaterRecord.type r =? "water")%string) todayRecords) 0 in
  (feed, water).

Definition getTodaysMortality (st : t) (flockId : string) : Z :=
  let todayRecords :=
    filter (fun r => is_string (MortalityRecord.flockId r) flockId
                     && (toDateString (MortalityRecord.date r) =? today)%string)
      (JsMap.values (mortalityRecords st)) in
  fold_left (fun sum r => (sum + MortalityRecord.deathCount r)%Z) todayRecords 0%Z.

End Today.

End MemStorage.

(** ** server/routes.ts: the handlers

    A handler is a function of the store and the parsed request, giving
    the store afterwards and the response.  Request bodies are read at
    the types the clients send; the [catch] branches, which need an
    exception, are outside the model. *)

Module Handler.

(** The message templates of [/api/calculate-environment]. *)
Inductive Message :=
| MsgBelowRange (insideTemp : Q)
| MsgAboveRange (insideTemp : Q)
| MsgFixed (text : string).

Module Advisory.
Record t := mk {
  type : Severity;
  title : string;
  message : Message;
  action : string
}.
End Advisory.

Module Calculations.
Record t := mk {
  insideTemp : Q;
  insideHumidity : Q;
  totalHeating : Q;
  totalCooling : Q;
  ventilationEffect : Q;
  recommendations : list Advisory.t;
  volume : Q;
  surfaceArea : Q
}.
End Calculations.

(** The body the clients post; the handler reads the first four keys. *)
Module CalculateBody.
Record t := mk {
  farmId : string;
  outsideTemp : Q;
  outsideHumidity : Q;
  windSpeed : Q;
  flockAge : option Q
}.
End CalculateBody.

Inductive Body :=
| BodyMessage (message : string)
| BodyCalculations (calculations : Calculations.t)
| BodyEquipment (equipment : Equipment.t).

Module Response.
Record t := mk {
  status : Z;
  body : Body
}.
End Response.

(** The local constants of the handler body, in its order. *)

Definition totalHeating (equipment : list Equipment.t) : Q :=
  fold_left
    (fun sum heater =>
       let power := Js.or_num (Equipment.spec_field Specification.power heater) 0 in
       let setting := Js.or_num (Equipment.currentSetting heater) 0 in
       sum + (power * setting / 100))
    (filter (is_active_of "heater") equipment) 0.

Definition insideTemp_heated (farm : Farm.t) (equipment : list Equipment.t)
  (outsideTemp : Q) : Q :=
  outsideTemp + (totalHeating equipment * 0.8) / (Sim.volume farm * 0.001).

Definition coolingEffect (farm : Farm.t) (equipment : list Equipment.t)
  (outsideTemp : Q) : Q :=
  let insideTemp := insideTemp_heated farm equipment outsideTemp in
  (Routes.totalCooling equipment * 0.001
   * Js.Math_max (insideTemp - outsideTemp) 0) / Sim.volume farm.

Definition insideTemp_cooled (farm : Farm.t) (equipment : list Equipment.t)
  (outsideTemp : Q) : Q :=
  insideTemp_heated farm equipment outsideTemp
  - coolingEffect farm equipment outsideTemp.

Definition insideTemp_final (farm : Farm.t) (equipment : list Equipment.t)
  (outsideTemp windSpeed : Q) : Q :=
  insideTemp_cooled farm equipment outsideTemp
  - Routes.ventilationEffect equipment windSpeed.

Definition insideHumidity (farm : Farm.t) (equipment : list Equipment.t)
  (outsideTemp outsideHumidity windSpeed : Q) : Q :=
  let insideTemp := insideTemp_final farm equipment outsideTemp windSpeed in
  if Js.gt insideTemp outsideTemp then
    outsideHumidity * ((outsideTemp + 273.15) / (insideTemp + 273.15))
  else outsideHumidity.

Definition targetTempMin : Q := 30.
Definition targetTempMax : Q := 32.

Definition recommendations (insideTemp totalHeating : Q) : list Advisory.t :=
  let recommendations := [] in
  let recommendations :=
    recommendations ++
    (if Js.lt insideTemp targetTempMin then
       [ Advisory.mk warning "Temperature Below Target"
           (MsgBelowRange insideTemp) "temperature_low" ]
     else if Js.gt insideTemp targetTempMax then
       [ Advisory.mk warning "Temperature Above Target"
           (MsgAboveRange insideTemp) "temperature_high" ]
     else
       [ Advisory.mk success "Temperature Optimal"
           (MsgFixed "Inside temperature is within the optimal range for current age.")
           "temperature_good" ]) in
  let recommendations :=
    recommendations ++
    (if Js.gt totalHeating 10 && Js.gt insideTemp targetTempMax then
       [ Advisory.mk info "Energy Optimization"
           (MsgFixed "Consider reducing heater output to save energy while maintaining comfort zone.")
           "optimize_energy" ]
     else []) in
  recommendations.

Definition calculations (farm : Farm.t) (equipment : list Equipment.t)
  (outsideTemp outsideHumidity windSpeed : Q) : Calculations.t :=
  let insideTemp := insideTemp_final farm equipment outsideTemp windSpeed in
  Calculations.mk
    (round1 insideTemp)
    (round1 (insideHumidity farm equipment outsideTemp outsideHumidity windSpeed))
    (totalHeating equipment)
    (Routes.totalCooling equipment)
    (round1 (Routes.ventilationEffect equipment windSpeed))
    (recommendations insideTemp (totalHeating equipment))
    (Sim.volume farm)
    (round1 (Sim.surfaceArea farm)).

(** [POST /api/calculate-environment]. *)
Definition calculate_environment (storage : MemStorage.t)
  (body : CalculateBody.t) : Response.t :=
  let farm := MemStorage.getFarm storage (CalculateBody.farmId body) in
  let equipment :=
    MemStorage.getEquipmentByFarm storage (CalculateBody.farmId body) in
  match farm with
  | None => Response.mk 404 (BodyMessage "Farm not found")
  | Some farm =>
      Response.mk 200
        (BodyCalculations
           (calculations farm equipment (CalculateBody.outsideTemp body)
              (CalculateBody.outsideHumidity body)
              (CalculateBody.windSpeed body)))
  end.

(** [updateEquipmentSchema.parse]: a setting, when given, must lie in
    [[0, 100]]. *)
Definition updateEquipmentSchema_parse (body : UpdateEquipment.t)
  : option UpdateEquipment.t :=
  match UpdateEquipment.currentSetting body with
  | Some setting =>
      if Js.ge setting 0 && Js.le setting 100 then Some body else None
  | None => Some body
  end.

(** [PATCH /api/equipment/:id]. *)
Definition patch_equipment (storage : MemStorage.t) (id : string)
  (body : UpdateEquipment.t) : MemStorage.t * Response.t :=
  match updateEquipmentSchema_parse body with
  | None => (storage, Response.mk 400 (BodyMessage "Invalid equipment data"))
  | Some updateData =>
      match MemStorage.updateEquipment storage id updateData with
      | (storage, None) =>
          (storage, Response.mk 404 (BodyMessage "Equipment not found"))
      | (storage, Some equipment) =>
          (storage, Response.mk 200 (BodyEquipment equipment))
      end
  end.

(** [DELETE /api/equipment/:id]. *)
Definition delete_equipment (storage : MemStorage.t) (id : string)
  : MemStorage.t * Response.t :=
  match MemStorage.deleteEquipment storage id with
  | (storage, false) =>
      (storage, Response.mk 404 (BodyMessage "Equipment not found"))
  | (storage, true) =>
      (storage, Response.mk 200 (BodyMessage "Equipment deleted successfully"))
  end.

End Handler.

(** ** client: the components that consume the calculations *)

Module Client.

Section Received.

(** The text a message template prints ([toFixed] and all): the host's. *)
Variable render : Handler.Message -> string.

(** [response.json()] of the calculations, as the components type it. *)
Definition received (c : Handler.Calculations.t) : EnvironmentalCalculation.t :=
  EnvironmentalCalculation.mk
    (Handler.Calculations.insideTemp c)
    (Handler.Calculations.insideHumidity c)
    (Handler.Calculations.totalHeating c)
    (Handler.Calculations.totalCooling c)
    (Handler.Calculations.ventilationEffect c)
    (map (fun a =>
            Recommendation.mk (Handler.Advisory.type a) (Handler.Advisory.title a)
              (MsgText (render (Handler.Advisory.message a)))
              (Handler.Advisory.action a))
       (Handler.Calculations.recommendations c))
    (Handler.Calculations.volume c)
    (Handler.Calculations.surfaceArea c).

End Received.

(** A request [apiRequest('PATCH', `/api/equipment/${id}`, data)]. *)
Inductive Request := PATCH (id : string) (data : UpdateEquipment.t).

(** ai-recommendations.tsx: what one pass of the loop of
    [applyAISuggestions] sends for one advisory. *)
Definition suggestion (action : string) (equipment : list Equipment.t)
  : list Request :=
  if (action =? "temperature_low")%string then
    let heaters :=
      filter (fun eq => (Equipment.type eq =? "heater")%string
                        && negb (Js.truthy (Equipment.isActive eq))) equipment in
    let fans :=
      filter (fun eq => (Equipment.type eq =? "fan")%string
                        && Js.truthy (Equipment.isActive eq)
                        && Js.gt (Js.or_num (Equipment.currentSetting eq) 0) 50)
        equipment in
    match heaters, fans with
    | heater :: _, _ =>
        [ PATCH (Equipment.id heater) (UpdateEquipment.mk (Some true) (Some 50)) ]
    | [], fan :: _ =>
        let newSetting :=
          Js.Math_max 20 (Js.or_num (Equipment.currentSetting fan) 0 - 20) in
        [ PATCH (Equipment.id fan) (UpdateEquipment.mk None (Some newSetting)) ]
    | [], [] => []
    end
  else if (action =? "temperature_high")%string then
    let fans :=
      filter (fun eq => (Equipment.type eq =? "fan")%string
                        && Js.lt (Js.or_num (Equipment.currentSetting eq) 0) 80)
        equipment in
    let heaters :=
      filter (fun eq => (Equipment.type eq =? "heater")%string
                        && Js.truthy (Equipment.isActive eq)
                        && Js.gt (Js.or_num (Equipment.currentSetting eq) 0) 30)
        equipment in
    match fans, heaters with
    | fan :: _, _ =>
        let newSetting :=
          Js.Math_min 100 (Js.or_num (Equipment.currentSetting fan) 0 + 20) in
        [ PATCH (Equipment.id fan) (UpdateEquipment.mk (Some true) (Some newSetting)) ]
    | [], heater :: _ =>
        let newSetting :=
          Js.Math_max 0 (Js.or_num (Equipment.currentSetting heater) 0 - 20) in
        [ PATCH (Equipment.id heater) (UpdateEquipment.mk None (Some newSetting)) ]
    | [], [] => []
    end
  else [].

(** The requests [applyAISuggestions] sends, in order, when each one
    succeeds; the [equipment] is the list the component was given. *)
Definition applyAISuggestions (recommendations : list Recommendation.t)
  (equipment : list Equipment.t) : list Request :=
  flat_map (fun rec => suggestion (Recommendation.action rec) equipment)
    recommendations.

(** environmental-controls.tsx: the band the gauge is drawn against. *)
Definition targetTempMin (currentAge : option Z) : Q :=
  match currentAge with
  | None => 30
  | Some age =>
      if (age =? 0)%Z then 30
      else if (age <? 7)%Z then 32
      else if (age <? 14)%Z then 30
      else if (age <? 21)%Z then 27
      else if (age <? 28)%Z then 24
      else 21
  end.

Definition targetTempMax (currentAge : option Z) : Q :=
  targetTempMin currentAge + 3.

Definition getTemperatureProgress (currentAge : option Z) (temp : Q) : Z :=
  let range := targetTempMax currentAge - targetTempMin currentAge in
  let progress :=
    Js.Math_max 0
      (Js.Math_min 100 (((temp - targetTempMin currentAge) / range) * 100)) in
  Js.Math_round progress.

End Client.

(** Every flock is stored under its own id, as [createFlock] stores it. *)
Definition keyed_by_id (flocks : JsMap.t Flock.t) : Prop :=
  Forall (fun entry => Flock.id (snd entry) = fst entry) flocks.

(** The flock after [deaths] losses. *)
Definition after_losses (deaths : Z) (flock : Flock.t) : Flock.t :=
  Flock.mk (Flock.id flock) (Flock.farmId flock) (Flock.name flock)
    (Z.max 0 (Flock.chickCount flock - deaths))
    (Flock.initialChickCount flock) (Flock.currentAge flock)
    (Flock.averageWeight flock).

(** Settings, where present, lie in [[0, 100]]. *)
Definition setting_in_range (eq : Equipment.t) : Prop :=
  match Equipment.currentSetting eq with
  | Some setting => 0 <= setting <= 100
  | None => True
  end.

(** Whether a route advisory with this action code is in the list. *)
Definition route_has_code (code : string) (advisories : list Handler.Advisory.t)
  : bool :=
  existsb (fun a => (Handler.Advisory.action a =? code)%string) advisories.

(** The payload of a request and the row it is addressed to. *)
Definition request_data (request : Client.Request) : UpdateEquipment.t :=
  match request with Client.PATCH _ data => data end.

Definition request_id (request : Client.Request) : string :=
  match request with Client.PATCH id _ => id end.

(** ** calculations.ts in doubles: the heating and cooling steps

    The same steps as [Sim.insideTemp_cooled], on IEEE binary64 numbers
    with the source's operations, each rounded to nearest.  The rows carry
    the fields these steps read. *)

Module Double.
Import PrimFloat.
#[local] Open Scope float_scope.
#[local] Set Warnings "-inexact-float".

(** [x || d]: [undefined], [null], [NaN] and both zeros give [d]. *)
Definition or_num (x : option float) (d : float) : float :=
  match x with
  | Some v => if is_nan v || is_zero v then d else v
  | None => d
  end.

(** [Math.max] and [Math.min]: NaN if either is NaN; of the two zeros
    [max] takes the positive one and [min] the negative one. *)
Definition Math_max (x y : float) : float :=
  if is_nan x || is_nan y then nan
  else if x <? y then y
  else if y <? x then x
  else if get_sign x then y else x.

Definition Math_min (x y : float) : float :=
  if is_nan x || is_nan y then nan
  else if x <? y then x
  else if y <? x then y
  else if get_sign x then x else y.

Module Farm.
Record t := mk {
  length : float;
  width : float;
  height : float
}.
End Farm.

Module Specification.
Record t := mk {
  diameter : option float;
  power : option float;
  surface : option float
}.
End Specification.

Module Equipment.
Record t := mk {
  type : string;
  specification : option Specification.t;
  isActive : option bool;
  currentSetting : option float
}.

Definition spec_field (f : Specification.t -> option float) (eq : t)
  : option float :=
  match specification eq with
  | Some s => f s
  | None => None
  end.
End Equipment.

Definition is_active_of (kind : string) (eq : Equipment.t) : bool :=
  (Equipment.type eq =? kind)%string && Js.truthy (Equipment.isActive eq).

Definition volume (farm : Farm.t) : float :=
  Farm.length farm * Farm.width farm * Farm.height farm.

Definition activeHeaters (equipment : list Equipment.t) : list Equipment.t :=
  filter (is_active_of "heater") equipment.

Definition totalHeating (equipment : list Equipment.t) : float :=
  fold_left
    (fun sum heater =>
       let power := or_num (Equipment.spec_field Specification.power heater) 0 in
       let setting := or_num (Equipment.currentSetting heater) 0 in
       sum + (power * setting / 100))
    (activeHeaters equipment) 0.

(** [EQUIPMENT_SPECS.heater.efficiencyFactor] is 0.8, [temperatureRise]
    0.5 and [EQUIPMENT_SPECS.fan.airflowFactor] 0.85. *)
Definition heatingEffect (farm : Farm.t) (equipment : list Equipment.t) : float :=
  totalHeating equipment * 0.8 * 0.5 / (volume farm / 100).

Definition insideTemp_heated (farm : Farm.t) (equipment : list Equipment.t)
  (outsideTemp : float) : float :=
  outsideTemp + heatingEffect farm equipment.

Definition activeFans (equipment : list Equipment.t) : list Equipment.t :=
  filter (is_active_of "fan") equipment.

Definition totalCooling (equipment : list Equipment.t) : float :=
  fold_left
    (fun sum fan =>
       let diameter := or_num (Equipment.spec_field Specification.diameter fan) 0 in
       let setting := or_num (Equipment.currentSetting fan) 0 in
       let airflow := diameter * 0.85 * setting / 100 in
       sum + airflow)
    (activeFans equipment) 0.

Definition coolingEffect (farm : Farm.t) (equipment : list Equipment.t)
  (outsideTemp : float) : float :=
  let insideTemp := insideTemp_heated farm equipment outsideTemp in
  Math_min
    (totalCooling equipment * 0.001 * Math_max (insideTemp - outsideTemp) 0
     / volume farm)
    (insideTemp - outsideTemp).

(** The running [insideTemp] after [insideTemp -= coolingEffect]. *)
Definition insideTemp_cooled (farm : Farm.t) (equipment : list Equipment.t)
  (outsideTemp : float) : float :=
  insideTemp_heated farm equipment outsideTemp
  - coolingEffect farm equipment outsideTemp.

(** An enclosure of one cubic metre, one heater of 12 kW at 45 percent
    and ten fans of 120 cm at 100 percent, all switched on, with 15.1
    degrees outside. *)
Definition small_farm : Farm.t := Farm.mk 1 1 1.

Definition heater_row (power setting : float) : Equipment.t :=
  Equipment.mk "heater" (Some (Specification.mk None (Some power) None))
    (Some true) (Some setting).

Definition fan_row (diameter setting : float) : Equipment.t :=
  Equipment.mk "fan" (Some (Specification.mk (Some diameter) None None))
    (Some true) (Some setting).

Definition crowded_equipment : list Equipment.t :=
  heater_row 12 45 :: repeat (fan_row 120 100) 10.

Definition mild_outside : float := 15.1.

Definition just_below_mild : float := 15.099999999999994.

(** A row is non-negative when its power, diameter and setting are. *)
Definition nonnegative_row (eq : Equipment.t) : bool :=
  (0 <=? or_num (Equipment.spec_field Specification.power eq) 0)
  && (0 <=? or_num (Equipment.spec_field Specification.diameter eq) 0)
  && (0 <=? or_num (Equipment.currentSetting eq) 0).

End Double.

(** The same enclosure and rows for the exact steps. *)
Definition small_farm : Farm.t := Farm.mk "f-0" "Box" 1 1 1.

Definition crowded_equipment : list Equipment.t :=
  heater_row 12 45 true :: repeat (fan_row 120 100 true) 10.

(** An advisory with the code [temperature_good] is in the list. *)
Definition holds_temperature_good (recommendations : list Recommendation.t)
  : Prop :=
  exists r, In r recommendations
            /\ Recommendation.action r = "temperature_good"%string.

(** * Properties *)

(** ** Comparisons and rounding *)

Lemma lt_spec (x y : Q) : Js.lt x y = true <-> x < y.
Proof.
  unfold Js.lt. rewrite negb_true_iff. split; intro H.
  - apply Qnot_le_lt. intro Hle. apply Qle_bool_iff in Hle. congruence.
  - destruct (Qle_bool y x) eqn:E; [|reflexivity].
    apply Qle_bool_iff in E. exfalso. apply (Qlt_not_le _ _ H E).
Qed.

Lemma lt_false (x y : Q) : Js.lt x y = false <-> y <= x.
Proof.
  unfold Js.lt. rewrite negb_false_iff. apply Qle_bool_iff.
Qed.

Lemma le_spec (x y : Q) : Js.le x y = true <-> x <= y.
Proof. apply Qle_bool_iff. Qed.

Lemma le_false (x y : Q) : Js.le x y = false <-> y < x.
Proof.
  unfold Js.le. split; intro H.
  - apply Qnot_le_lt. intro Hle. apply Qle_bool_iff in Hle. congruence.
  - destruct (Qle_bool x y) eqn:E; [|reflexivity].
    apply Qle_bool_iff in E. exfalso. apply (Qlt_not_le _ _ H E).
Qed.

(** Turns every comparison outcome among the hypotheses into an order fact. *)
Ltac order_facts :=
  unfold Js.gt, Js.ge in *;
  repeat match goal with
  | H : Js.lt _ _ = true |- _ => apply lt_spec in H
  | H : Js.lt _ _ = false |- _ => apply lt_false in H
  | H : Js.le _ _ = true |- _ => apply le_spec in H
  | H : Js.le _ _ = false |- _ => apply le_false in H
  end.

Lemma Math_round_upper (x : Q) : inject_Z (Js.Math_round x) <= x + (1 # 2).
Proof. apply Qfloor_le. Qed.

Lemma Math_round_lower (x : Q) : x - (1 # 2) < inject_Z (Js.Math_round x).
Proof.
  unfold Js.Math_round.
  pose proof (Qlt_floor (x + (1 # 2))) as H.
  rewrite inject_Z_plus in H. change (inject_Z 1) with 1 in H. lra.
Qed.

Lemma Math_round_mono (x y : Q) :
  x <= y -> (Js.Math_round x <= Js.Math_round y)%Z.
Proof. intro H. apply Qfloor_resp_le. lra. Qed.

Lemma Math_round_Z (z : Z) (x : Q) : x == inject_Z z -> Js.Math_round x = z.
Proof.
  intro H. unfold Js.Math_round.
  assert (Hlo : (z <= Qfloor (x + (1 # 2)))%Z).
  { rewrite <- (Qfloor_Z z). apply Qfloor_resp_le. lra. }
  assert (Hhi : (Qfloor (x + (1 # 2)) < z + 1)%Z).
  { rewrite Zlt_Qlt. pose proof (Qfloor_le (x + (1 # 2))) as Hf.
    rewrite inject_Z_plus. change (inject_Z 1) with 1. lra. }
  lia.
Qed.

#[global] Instance Math_round_comp : Proper (Qeq ==> eq) Js.Math_round.
Proof. intros x y H. unfold Js.Math_round. now rewrite H. Qed.

#[global] Instance round1_comp : Proper (Qeq ==> Qeq) round1.
Proof. intros x y H. unfold round1. now rewrite H. Qed.

Lemma round1_mono (x y : Q) : x <= y -> round1 x <= round1 y.
Proof.
  intro H. unfold round1.
  assert (Hm : inject_Z (Js.Math_round (x * 10)) <= inject_Z (Js.Math_round (y * 10))).
  { rewrite <- Zle_Qle. apply Math_round_mono. lra. }
  unfold Qdiv. apply Qmult_le_compat_r; [exact Hm | discriminate].
Qed.

Lemma round1_Z (z : Z) : round1 (inject_Z z) == inject_Z z.
Proof.
  unfold round1.
  rewrite (Math_round_Z (z * 10)).
  - rewrite inject_Z_mult. change (inject_Z 10) with 10. field.
  - rewrite inject_Z_mult. reflexivity.
Qed.

Lemma or_num_zero (x : option Q) : Js.or_num x 0 == match x with Some v => v | None => 0 end.
Proof.
  destruct x as [v|]; simpl; [|reflexivity].
  destruct (Qeq_bool v 0) eqn:E; [|reflexivity].
  apply Qeq_bool_eq in E. now rewrite E.
Qed.

(** ** The target table *)

Lemma AGE_TARGETS_35_in_table : lookup_targets AGE_TARGETS 35 = Some AGE_TARGETS_35.
Proof. reflexivity. Qed.

Lemma targets_for_cases (age : Q) :
  In (targets_for age) (map snd AGE_TARGETS).
Proof.
  unfold targets_for, AGE_TARGETS. generalize (ageKey age) as key. intro key.
  cbn [lookup_targets map snd].
  repeat match goal with
  | |- context [ (?k =? key)%Z ] => destruct (k =? key)%Z
  end; cbn [In]; tauto.
Qed.

Lemma targets_for_ordered (age : Q) :
  Targets.tempMin (targets_for age) < Targets.tempMax (targets_for age).
Proof.
  pose proof (targets_for_cases age) as H. simpl in H.
  repeat destruct H as [H | H]; try contradiction;
    rewrite <- H; reflexivity.
Qed.

(** ** The advisory list *)

(** What each block pushes, by action code. *)

Lemma temperature_block_actions targets insideTemp age :
  actions (temperature_block targets insideTemp age) =
  [ if Js.lt insideTemp (Targets.tempMin targets) then "temperature_low"%string
    else if Js.gt insideTemp (Targets.tempMax targets) then "temperature_high"%string
    else "temperature_good"%string ].
Proof.
  unfold temperature_block.
  destruct (Js.lt _ _); [reflexivity|]. destruct (Js.gt _ _); reflexivity.
Qed.

Lemma humidity_block_actions targets insideHumidity :
  actions (humidity_block targets insideHumidity) =
  if Js.lt insideHumidity (Targets.humidity targets - 10) then ["humidity_low"%string]
  else if Js.gt insideHumidity (Targets.humidity targets + 15) then ["humidity_high"%string]
  else [].
Proof.
  unfold humidity_block.
  destruct (Js.lt _ _); [reflexivity|]. destruct (Js.gt _ _); reflexivity.
Qed.

Lemma energy_block_actions targets insideTemp totalHeating :
  actions (energy_block targets insideTemp totalHeating) =
  if Js.gt totalHeating 10 && Js.gt insideTemp (Targets.tempMax targets)
  then ["optimize_energy"%string] else [].
Proof. unfold energy_block. destruct (_ && _); reflexivity. Qed.

Lemma fans_block_actions targets insideTemp activeFans :
  actions (fans_block targets insideTemp activeFans) =
  if (1 <? List.length activeFans)%nat
     && Js.ge insideTemp (Targets.tempMin targets)
     && Js.le insideTemp (Targets.tempMax targets)
  then ["optimize_fans"%string] else [].
Proof. unfold fans_block. destruct (_ && _); reflexivity. Qed.

Lemma heating_block_actions targets insideTemp activeHeaters :
  actions (heating_block targets insideTemp activeHeaters) =
  if (List.length activeHeaters =? 0)%nat
     && Js.lt insideTemp (Targets.tempMin targets - 2)
  then ["activate_heating"%string] else [].
Proof. unfold heating_block. destruct (_ && _); reflexivity. Qed.

Lemma generateRecommendations_actions
  insideTemp insideHumidity age totalHeating totalCooling equipment :
  actions (generateRecommendations insideTemp insideHumidity age
             totalHeating totalCooling equipment) =
  actions (temperature_block (targets_for age) insideTemp age)
  ++ actions (humidity_block (targets_for age) insideHumidity)
  ++ actions (energy_block (targets_for age) insideTemp totalHeating)
  ++ actions (fans_block (targets_for age) insideTemp
                (filter (is_active_of "fan") equipment))
  ++ actions (heating_block (targets_for age) insideTemp
                (filter (is_active_of "heater") equipment)).
Proof.
  unfold generateRecommendations, actions. cbn [app].
  rewrite !map_app, <- !app_assoc. reflexivity.
Qed.

(** C4.  Whatever the inside temperature, humidity, age, heating total and
    equipment list, the advisory list of [generateRecommendations] holds
    exactly one advisory whose action code is one of [temperature_low],
    [temperature_high], [temperature_good]: the three codes occur once in
    total, and that advisory is the head of the list. *)
Theorem exactly_one_temperature_advisory
  (insideTemp insideHumidity age totalHeating totalCooling : Q)
  (equipment : list Equipment.t) :
  let recommendations :=
    generateRecommendations insideTemp insideHumidity age
      totalHeating totalCooling equipment in
  List.length
    (filter (fun r => is_temperature_code (Recommendation.action r))
       recommendations) = 1%nat
  /\ (count_code "temperature_low" recommendations
      + count_code "temperature_high" recommendations
      + count_code "temperature_good" recommendations = 1)%nat
  /\ exists first rest,
       recommendations = first :: rest
       /\ is_temperature_code (Recommendation.action first) = true.
Proof.
  cbv zeta. split; [|split].
  - unfold generateRecommendations. cbn [app].
    rewrite !filter_app, !length_app.
    unfold temperature_block, humidity_block, energy_block, fans_block,
      heating_block.
    repeat match goal with
    | |- context [ if ?b then _ else _ ] => destruct b
    end; reflexivity.
  - unfold count_code. rewrite generateRecommendations_actions.
    rewrite !count_occ_app.
    rewrite temperature_block_actions, humidity_block_actions,
      energy_block_actions, fans_block_actions, heating_block_actions.
    repeat match goal with
    | |- context [ if ?b then _ else _ ] => destruct b
    end; reflexivity.
  - unfold generateRecommendations. cbn [app]. unfold temperature_block.
    destruct (Js.lt _ _); [|destruct (Js.gt _ _)];
      cbn [app]; eexists; eexists; split; reflexivity.
Qed.

(** The tests of the last three blocks exclude one another as soon as the
    band is not empty: the first needs [insideTemp] above the band, the
    second inside it, the third more than two degrees below it. *)
Lemma optimisation_tests_exclusive (targets : Targets.t)
  (insideTemp totalHeating : Q) (fans heaters : nat) :
  Targets.tempMin targets < Targets.tempMax targets ->
  let energy :=
    Js.gt totalHeating 10 && Js.gt insideTemp (Targets.tempMax targets) in
  let fewer_fans :=
    (1 <? fans)%nat && Js.ge insideTemp (Targets.tempMin targets)
    && Js.le insideTemp (Targets.tempMax targets) in
  let heating :=
    (heaters =? 0)%nat && Js.lt insideTemp (Targets.tempMin targets - 2) in
  energy && fewer_fans = false
  /\ energy && heating = false
  /\ fewer_fans && heating = false.
Proof.
  intros Hband. cbv zeta.
  destruct (Js.gt totalHeating 10), (1 <? fans)%nat, (heaters =? 0)%nat;
    cbn [andb];
    destruct (Js.gt insideTemp (Targets.tempMax targets)) eqn:Habove;
    destruct (Js.ge insideTemp (Targets.tempMin targets)) eqn:Hge;
    destruct (Js.le insideTemp (Targets.tempMax targets)) eqn:Hle;
    destruct (Js.lt insideTemp (Targets.tempMin targets - 2)) eqn:Hcold;
    cbn [andb]; repeat split; try reflexivity;
    exfalso; order_facts; lra.
Qed.

(** C10.  For every input [generateRecommendations] returns between one
    and three advisories: exactly one temperature advisory; never both
    [humidity_low] and [humidity_high]; and at most one of
    [optimize_energy], [optimize_fans], [activate_heating]. *)
Theorem between_one_and_three_advisories
  (insideTemp insideHumidity age totalHeating totalCooling : Q)
  (equipment : list Equipment.t) :
  let recommendations :=
    generateRecommendations insideTemp insideHumidity age
      totalHeating totalCooling equipment in
  (1 <= List.length recommendations <= 3)%nat
  /\ (count_code "temperature_low" recommendations
      + count_code "temperature_high" recommendations
      + count_code "temperature_good" recommendations = 1)%nat
  /\ (count_code "humidity_low" recommendations
      + count_code "humidity_high" recommendations <= 1)%nat
  /\ (count_code "optimize_energy" recommendations
      + count_code "optimize_fans" recommendations
      + count_code "activate_heating" recommendations <= 1)%nat.
Proof.
  cbv zeta.
  rewrite <- (length_map Recommendation.action).
  fold (actions (generateRecommendations insideTemp insideHumidity age
                   totalHeating totalCooling equipment)).
  unfold count_code. rewrite generateRecommendations_actions.
  rewrite !length_app, !count_occ_app.
  rewrite temperature_block_actions, humidity_block_actions,
    energy_block_actions, fans_block_actions, heating_block_actions.
  pose proof (optimisation_tests_exclusive (targets_for age) insideTemp
                totalHeating
                (List.length (filter (is_active_of "fan") equipment))
                (List.length (filter (is_active_of "heater") equipment))
                (targets_for_ordered age)) as Hex.
  cbv zeta in Hex.
  set (energy := Js.gt totalHeating 10 && _) in *.
  set (fewer_fans := (1 <? _)%nat && _ && _) in *.
  set (heating := (_ =? 0)%nat && _) in *.
  destruct Hex as (Hef & Heh & Hfh).
  destruct energy, fewer_fans, heating; try discriminate;
    repeat match goal with
    | |- context [ if ?b then _ else _ ] => destruct b
    end; cbn; lia.
Qed.

(** ** The simulator's temperature steps *)

Lemma cooling_never_overshoots (farm : Farm.t) (equipment : list Equipment.t)
  (outsideTemp : Q) :
  Sim.coolingEffect farm equipment outsideTemp
  <= Sim.insideTemp_heated farm equipment outsideTemp - outsideTemp.
Proof. unfold Sim.coolingEffect, Js.Math_min. cbv zeta. apply Q.le_min_r. Qed.

(** In exact arithmetic the running [insideTemp] right after the cooling
    step is at least [outsideTemp], for every input: the second argument
    of the minimum is [insideTemp - outsideTemp]. *)
Lemma cooled_not_below_outside_exact (farm : Farm.t)
  (equipment : list Equipment.t) (outsideTemp : Q) :
  outsideTemp <= Sim.insideTemp_cooled farm equipment outsideTemp.
Proof.
  unfold Sim.insideTemp_cooled.
  pose proof (cooling_never_overshoots farm equipment outsideTemp). lra.
Qed.

(** C6, where the code falls short.  The minimum bounds the cooling
    effect by the computed difference [insideTemp - outsideTemp], but the
    source subtracts that rounded difference from [insideTemp] in doubles.
    In an enclosure of one cubic metre with a heater of 12 kW at 45
    percent and ten fans of 120 cm at 100 percent, all inputs positive,
    and 15.1 degrees outside, the temperature after the cooling step is
    15.099999999999994, below the outside temperature; in exact
    arithmetic the same step gives 15.1. *)
Theorem cooling_rounds_below_outside :
  PrimFloat.ltb PrimFloat.zero (Double.volume Double.small_farm) = true
  /\ forallb Double.nonnegative_row Double.crowded_equipment = true
  /\ Double.coolingEffect Double.small_farm Double.crowded_equipment
       Double.mild_outside
     = PrimFloat.sub
         (Double.insideTemp_heated Double.small_farm Double.crowded_equipment
            Double.mild_outside)
         Double.mild_outside
  /\ Double.insideTemp_cooled Double.small_farm Double.crowded_equipment
       Double.mild_outside
     = Double.just_below_mild
  /\ PrimFloat.ltb
       (Double.insideTemp_cooled Double.small_farm Double.crowded_equipment
          Double.mild_outside)
       Double.mild_outside = true
  /\ Sim.insideTemp_cooled small_farm crowded_equipment 15.1 == 15.1.
Proof.
  repeat split; vm_compute; reflexivity.
Qed.

Lemma no_heaters_no_heating (farm : Farm.t) (equipment : list Equipment.t) :
  Sim.activeHeaters equipment = [] ->
  Sim.totalHeating equipment == 0 /\ Sim.heatingEffect farm equipment == 0.
Proof.
  intro H. unfold Sim.heatingEffect, Sim.totalHeating. rewrite H. cbn [fold_left].
  split; [reflexivity|]. unfold Qdiv. ring.
Qed.

Lemma no_fans_no_cooling (farm : Farm.t) (equipment : list Equipment.t)
  (outsideTemp : Q) :
  Sim.activeHeaters equipment = [] ->
  Sim.activeFans equipment = [] ->
  Sim.totalCooling equipment == 0
  /\ Sim.coolingEffect farm equipment outsideTemp == 0.
Proof.
  intros Hh Hf.
  destruct (no_heaters_no_heating farm equipment Hh) as [_ Heff].
  unfold Sim.coolingEffect, Sim.totalCooling, Sim.insideTemp_heated.
  rewrite Hf. cbn [fold_left]. cbv zeta. split; [reflexivity|].
  unfold Js.Math_min.
  assert (Hd : outsideTemp + Sim.heatingEffect farm equipment - outsideTemp == 0)
    by (rewrite Heff; ring).
  rewrite Hd. rewrite Q.min_r; [reflexivity|].
  unfold Qdiv. ring_simplify. apply Qle_refl.
Qed.

(** C5, as the code has it.  With no active heater and no active fan, and
    a positive volume, the heating and cooling terms are zero and the
    running [insideTemp] is [outsideTemp] minus the ventilation sum; the
    returned [insideTemp] is that difference rounded to one decimal (and
    the returned [ventilationEffect] is the sum rounded on its own). *)
Theorem unconditioned_temperature (farm : Farm.t)
  (equipment : list Equipment.t)
  (outsideTemp outsideHumidity windSpeed : Q) (flockAge : option Q) :
  0 < Sim.volume farm ->
  Sim.activeHeaters equipment = [] ->
  Sim.activeFans equipment = [] ->
  let result :=
    calculateInsideTemperature farm equipment outsideTemp outsideHumidity
      windSpeed flockAge in
  Sim.heatingEffect farm equipment == 0
  /\ Sim.coolingEffect farm equipment outsideTemp == 0
  /\ Sim.insideTemp_final farm equipment outsideTemp windSpeed
     == outsideTemp - Sim.ventilationEffect equipment windSpeed
  /\ EnvironmentalCalculation.insideTemp result
     == round1 (outsideTemp - Sim.ventilationEffect equipment windSpeed)
  /\ EnvironmentalCalculation.ventilationEffect result
     == round1 (Sim.ventilationEffect equipment windSpeed).
Proof.
  intros _ Hh Hf. cbv zeta.
  destruct (no_heaters_no_heating farm equipment Hh) as [_ Heat].
  destruct (no_fans_no_cooling farm equipment outsideTemp Hh Hf) as [_ Cool].
  assert (Hfinal : Sim.insideTemp_final farm equipment outsideTemp windSpeed
                   == outsideTemp - Sim.ventilationEffect equipment windSpeed).
  { unfold Sim.insideTemp_final, Sim.insideTemp_cooled, Sim.insideTemp_heated.
    rewrite Cool, Heat. ring. }
  split; [exact Heat | split; [exact Cool | split; [exact Hfinal | split]]].
  - unfold calculateInsideTemperature. cbn [EnvironmentalCalculation.insideTemp].
    now rewrite Hfinal.
  - unfold calculateInsideTemperature. reflexivity.
Qed.

Lemma unconditioned_temperature_witness :
  let equipment := [inlet_row 2 100 false; fan_row 120 100 false] in
  0 < Sim.volume sample_farm
  /\ Sim.activeHeaters equipment = []
  /\ Sim.activeFans equipment = []
  /\ Sim.insideTemp_final sample_farm equipment 22 10
     == 22 - Sim.ventilationEffect equipment 10.
Proof.
  cbv zeta.
  split; [reflexivity | split; [reflexivity | split; [reflexivity |]]].
  exact (proj1 (proj2 (proj2
    (unconditioned_temperature sample_farm
       [inlet_row 2 100 false; fan_row 120 100 false] 22 45 10 (Some 18)
       eq_refl eq_refl eq_refl)))).
Defined.

(** C5 as the specification words it fails on the returned values: with
    no equipment at all and 22.25 degrees outside, the returned
    [insideTemp] is 22.3 and the returned [ventilationEffect] is 0. *)
Lemma returned_temperature_is_rounded :
  let result := calculateInsideTemperature sample_farm [] 22.25 45 0 None in
  0 < Sim.volume sample_farm
  /\ Sim.activeHeaters [] = [] /\ Sim.activeFans [] = []
  /\ EnvironmentalCalculation.insideTemp result == 22.3
  /\ EnvironmentalCalculation.ventilationEffect result == 0
  /\ ~ (EnvironmentalCalculation.insideTemp result
        == 22.25 - EnvironmentalCalculation.ventilationEffect result).
Proof.
  cbv zeta. repeat split; try reflexivity.
  intro H. vm_compute in H. discriminate H.
Qed.

(** ** Humidity *)

Lemma round1_within (lo hi : Z) (x : Q) :
  inject_Z lo <= x <= inject_Z hi ->
  inject_Z lo <= round1 x <= inject_Z hi.
Proof.
  intros [Hlo Hhi]. split.
  - rewrite <- (round1_Z lo). now apply round1_mono.
  - rewrite <- (round1_Z hi). now apply round1_mono.
Qed.

Lemma clamp_within (x : Q) :
  30 <= Js.Math_min 100 (Js.Math_max 30 x) <= 100.
Proof.
  unfold Js.Math_min, Js.Math_max. split.
  - apply Q.min_glb; [discriminate | apply Q.le_max_l].
  - apply Q.le_min_l.
Qed.

(** C3, as the code has it.  When the running [insideTemp] (the value
    the function tests, before the output is rounded) is above
    [outsideTemp], the returned [insideHumidity] lies in [[30, 100]];
    otherwise it is [outsideHumidity] rounded to one decimal. *)
Theorem returned_humidity (farm : Farm.t) (equipment : list Equipment.t)
  (outsideTemp outsideHumidity windSpeed : Q) (flockAge : option Q) :
  let result :=
    calculateInsideTemperature farm equipment outsideTemp outsideHumidity
      windSpeed flockAge in
  if Js.gt (Sim.insideTemp_final farm equipment outsideTemp windSpeed)
       outsideTemp
  then 30 <= EnvironmentalCalculation.insideHumidity result <= 100
  else EnvironmentalCalculation.insideHumidity result == round1 outsideHumidity.
Proof.
  cbv zeta. unfold calculateInsideTemperature.
  cbn [EnvironmentalCalculation.insideHumidity].
  unfold Sim.insideHumidity. cbv zeta.
  destruct (Js.gt _ outsideTemp).
  - apply (round1_within 30 100). apply clamp_within.
  - reflexivity.
Qed.

(** C3 as the specification words it fails in its second half: with no
    equipment the inside temperature stays at the outside one, and an
    outside humidity of 45.25 comes back as 45.3. *)
Lemma returned_humidity_is_rounded :
  let result := calculateInsideTemperature sample_farm [] 22 45.25 0 None in
  Js.gt (Sim.insideTemp_final sample_farm [] 22 0) 22 = false
  /\ ~ (22 < EnvironmentalCalculation.insideTemp result)
  /\ EnvironmentalCalculation.insideHumidity result == 45.3
  /\ ~ (EnvironmentalCalculation.insideHumidity result == 45.25).
Proof.
  cbv zeta. split; [reflexivity | split; [| split]].
  - intro H. vm_compute in H. discriminate H.
  - reflexivity.
  - intro H. vm_compute in H. discriminate H.
Qed.

(** ** The default age *)

(** C9.  A simulation with [flockAge = 0] returns what the simulation
    with [flockAge] absent returns: both call [generateRecommendations]
    with age 18, whose band is the 14-day one (27 to 30 degrees) and not
    the 0-day one (32 to 35 degrees). *)
Theorem day_zero_flock_is_aged_eighteen (farm : Farm.t)
  (equipment : list Equipment.t)
  (outsideTemp outsideHumidity windSpeed : Q) :
  calculateInsideTemperature farm equipment outsideTemp outsideHumidity
    windSpeed (Some 0)
  = calculateInsideTemperature farm equipment outsideTemp outsideHumidity
      windSpeed None
  /\ EnvironmentalCalculation.recommendations
       (calculateInsideTemperature farm equipment outsideTemp outsideHumidity
          windSpeed (Some 0))
     = generateRecommendations
         (Sim.insideTemp_final farm equipment outsideTemp windSpeed)
         (Sim.insideHumidity farm equipment outsideTemp outsideHumidity windSpeed)
         18 (Sim.totalHeating equipment) (Sim.totalCooling equipment) equipment
  /\ targets_for 18 = Targets.mk 27 30 65 30
  /\ lookup_targets AGE_TARGETS 14 = Some (targets_for 18)
  /\ targets_for 0 = Targets.mk 32 35 60 20
  /\ actions (EnvironmentalCalculation.recommendations
                (calculateInsideTemperature sample_farm [] 28 60 0 (Some 0)))
     = ["temperature_good"%string]
  /\ actions (generateRecommendations 28 60 0 0 0 [])
     = ["temperature_low"%string; "activate_heating"%string].
Proof. repeat split. Qed.

(** ** Ventilation *)

Lemma inlets_with_surface (surface : option Q) (equipment : list Equipment.t) :
  Sim.inlets (map (with_surface surface) equipment)
  = map (with_surface surface) (Sim.inlets equipment).
Proof.
  unfold Sim.inlets. induction equipment as [|eq rest IH]; [reflexivity|].
  cbn [map filter]. cbn [with_surface Equipment.type]. rewrite IH.
  destruct (Equipment.type eq =? "inlet")%string; reflexivity.
Qed.

Lemma ventilation_fold_with_surface (surface : option Q) (windSpeed : Q)
  (rows : list Equipment.t) (start : Q) :
  fold_left
    (fun sum inlet =>
       let surface := Js.or_num (Equipment.spec_field Specification.surface inlet) 0 in
       let opening := Js.or_num (Equipment.currentSetting inlet) 0 in
       let velocity := opening * EQUIPMENT_SPECS.inlet.velocityFactor / 100 in
       let coolingFromVentilation :=
         velocity * EQUIPMENT_SPECS.inlet.coolingFactor * windSpeed * 0.1 in
       sum + coolingFromVentilation)
    (map (with_surface surface) rows) start
  = fold_left
      (fun sum inlet =>
         let surface := Js.or_num (Equipment.spec_field Specification.surface inlet) 0 in
         let opening := Js.or_num (Equipment.currentSetting inlet) 0 in
         let velocity := opening * EQUIPMENT_SPECS.inlet.velocityFactor / 100 in
         let coolingFromVentilation :=
           velocity * EQUIPMENT_SPECS.inlet.coolingFactor * windSpeed * 0.1 in
         sum + coolingFromVentilation)
      rows start.
Proof.
  revert start. induction rows as [|row rest IH]; intro start; [reflexivity|].
  cbn [map fold_left]. rewrite IH. reflexivity.
Qed.

(** C1, what the code does.  The simulator's ventilation sum never reads
    the inlets' [surface]: replacing it in every row leaves the sum
    unchanged.  For one inlet of 2 square metres opened at 100 percent in
    a wind of 40 the function returns 1, where the specified formula
    gives 2. *)
Theorem ventilation_ignores_surface :
  (forall (surface : option Q) (equipment : list Equipment.t) (windSpeed : Q),
      Sim.ventilationEffect (map (with_surface surface) equipment) windSpeed
      = Sim.ventilationEffect equipment windSpeed)
  /\ EnvironmentalCalculation.ventilationEffect
       (calculateInsideTemperature sample_farm [inlet_row 2 100 false]
          22 45 40 None) == 1
  /\ Sim.ventilationEffect [inlet_row 2 100 false] 40 == 1
  /\ spec_ventilationEffect [inlet_row 2 100 false] 40 == 2.
Proof.
  split; [| repeat split].
  intros surface equipment windSpeed. unfold Sim.ventilationEffect.
  rewrite inlets_with_surface. apply ventilation_fold_with_surface.
Qed.

(** ** The shared module against the route handler *)

Lemma shared_cooling_one_fan (diameter setting : Q) :
  Sim.totalCooling [fan_row diameter setting true]
  == diameter * 0.85 * setting / 100.
Proof.
  unfold Sim.totalCooling, Sim.activeFans. cbn [filter].
  change (is_active_of "fan" (fan_row diameter setting true)) with true.
  cbn [fold_left]. cbv zeta.
  cbn [fan_row Equipment.spec_field Equipment.specification
         Specification.diameter Equipment.currentSetting].
  rewrite !or_num_zero. unfold EQUIPMENT_SPECS.fan.airflowFactor. ring.
Qed.

Lemma route_cooling_one_fan (diameter setting : Q) :
  Routes.totalCooling [fan_row diameter setting true]
  == Js.Math_PI * (diameter / 200) ^ 2 * setting * 50.
Proof.
  unfold Routes.totalCooling. cbn [filter].
  change (is_active_of "fan" (fan_row diameter setting true)) with true.
  cbn [fold_left]. cbv zeta.
  cbn [fan_row Equipment.spec_field Equipment.specification
         Specification.diameter Equipment.currentSetting].
  rewrite !or_num_zero. ring.
Qed.

(** C2.  The two fan reductions are not the same function, and neither
    are the two inlet reductions.  For one active fan the shared module
    gives [diameter * 0.85 * setting / 100] and the route handler
    [PI * (diameter / 200)^2 * setting * 50]; at 120 cm and 100 percent
    these are 102 and 1800 PI.  For one inlet of 2 square metres at 100
    percent in a wind of 40 the shared module gives 1 and the route
    handler 8. *)
Theorem shared_and_route_formulas_differ :
  (forall diameter setting : Q,
      Sim.totalCooling [fan_row diameter setting true]
      == diameter * 0.85 * setting / 100)
  /\ (forall diameter setting : Q,
         Routes.totalCooling [fan_row diameter setting true]
         == Js.Math_PI * (diameter / 200) ^ 2 * setting * 50)
  /\ (exists equipment,
         ~ (Sim.totalCooling equipment == Routes.totalCooling equipment))
  /\ (exists equipment windSpeed,
         ~ (Sim.ventilationEffect equipment windSpeed
            == Routes.ventilationEffect equipment windSpeed)).
Proof.
  split; [exact shared_cooling_one_fan |].
  split; [exact route_cooling_one_fan |].
  split.
  - exists [fan_row 120 100 true]. intro H. vm_compute in H. discriminate H.
  - exists [inlet_row 2 100 true], 40. intro H. vm_compute in H. discriminate H.
Qed.

(** ** Growth projections *)

Lemma round_hundredths (z : Z) (x : Q) :
  x * 100 == inject_Z z ->
  inject_Z (Js.Math_round (x * 100)) / 100 == x.
Proof.
  intro H. rewrite (Math_round_Z z _ H). rewrite <- H. field.
Qed.

Lemma baseGrowthRate_at_least_ten (currentAge : Z) :
  10 <= Growth.baseGrowthRate currentAge.
Proof. unfold Growth.baseGrowthRate, Js.Math_max. apply Q.le_max_l. Qed.

Lemma environmentalFactor_cases (recommendations : list Recommendation.t) :
  Growth.environmentalFactor recommendations
  == if hasGoodTemp recommendations then 1 else 0.85.
Proof.
  unfold Growth.environmentalFactor.
  destruct (hasGoodTemp recommendations); reflexivity.
Qed.

Lemma hasGoodTemp_spec (recommendations : list Recommendation.t) :
  hasGoodTemp recommendations = true <-> holds_temperature_good recommendations.
Proof.
  unfold hasGoodTemp, holds_temperature_good. rewrite existsb_exists.
  split; intros (r & Hin & Ha); exists r; split; try assumption;
    now apply String.eqb_eq.
Qed.

Lemma hasGoodTemp_false (recommendations : list Recommendation.t) :
  hasGoodTemp recommendations = false <-> ~ holds_temperature_good recommendations.
Proof.
  rewrite <- hasGoodTemp_spec. destruct (hasGoodTemp recommendations);
    split; intro H; try reflexivity; try discriminate; congruence.
Qed.

(** C7.  For every flock and simulation result the projector's [fcr] is
    [1.2 + currentAge * 0.01], plus [0.2] unless the result's
    recommendations hold an advisory whose action is [temperature_good],
    rounded to two decimals; the age being a whole number, the rounding
    changes nothing.  [environmentalFactor] is 1 with such an advisory
    and 0.85 without.  At age 42 without it, [fcr] is 1.82 and
    [environmentalFactor] 0.85. *)
Theorem projected_fcr (Math_pow : Q -> Q -> Q) (flock : Flock.t)
  (currentEnvironment : EnvironmentalCalculation.t) :
  let projection := calculateGrowthProjections Math_pow flock currentEnvironment in
  let recommendations :=
    EnvironmentalCalculation.recommendations currentEnvironment in
  let base := 1.2 + inject_Z (Flock.currentAge flock) * 0.01 in
  (holds_temperature_good recommendations ->
   GrowthProjection.fcr projection
   == inject_Z (Js.Math_round ((base + 0) * 100)) / 100
   /\ GrowthProjection.fcr projection == base
   /\ GrowthProjection.environmentalFactor projection == 1)
  /\ (~ holds_temperature_good recommendations ->
      GrowthProjection.fcr projection
      == inject_Z (Js.Math_round ((base + 0.2) * 100)) / 100
      /\ GrowthProjection.fcr projection == base + 0.2
      /\ GrowthProjection.environmentalFactor projection == 0.85)
  /\ (Flock.currentAge flock = 42%Z ->
      ~ holds_temperature_good recommendations ->
      GrowthProjection.fcr projection == 1.82
      /\ GrowthProjection.environmentalFactor projection == 0.85).
Proof.
  cbv zeta.
  set (recommendations := EnvironmentalCalculation.recommendations currentEnvironment).
  set (age := Flock.currentAge flock).
  assert (Hgood : holds_temperature_good recommendations ->
            GrowthProjection.fcr
              (calculateGrowthProjections Math_pow flock currentEnvironment)
            == inject_Z (Js.Math_round ((1.2 + inject_Z age * 0.01 + 0) * 100)) / 100
            /\ GrowthProjection.fcr
                 (calculateGrowthProjections Math_pow flock currentEnvironment)
               == 1.2 + inject_Z age * 0.01
            /\ GrowthProjection.environmentalFactor
                 (calculateGrowthProjections Math_pow flock currentEnvironment)
               == 1).
  { intro H. apply hasGoodTemp_spec in H.
    unfold calculateGrowthProjections.
    cbn [GrowthProjection.fcr GrowthProjection.environmentalFactor].
    unfold Growth.fcr, Growth.environmentalFactor.
    fold recommendations. fold age. rewrite H. cbn [negb].
    split; [reflexivity | split; [|reflexivity]].
    rewrite (round_hundredths (120 + age) (1.2 + inject_Z age * 0.01 + 0));
      [ring|].
    rewrite inject_Z_plus. change (inject_Z 120) with 120. ring. }
  assert (Hbad : ~ holds_temperature_good recommendations ->
            GrowthProjection.fcr
              (calculateGrowthProjections Math_pow flock currentEnvironment)
            == inject_Z (Js.Math_round ((1.2 + inject_Z age * 0.01 + 0.2) * 100)) / 100
            /\ GrowthProjection.fcr
                 (calculateGrowthProjections Math_pow flock currentEnvironment)
               == 1.2 + inject_Z age * 0.01 + 0.2
            /\ GrowthProjection.environmentalFactor
                 (calculateGrowthProjections Math_pow flock currentEnvironment)
               == 0.85).
  { intro H. apply hasGoodTemp_false in H.
    unfold calculateGrowthProjections.
    cbn [GrowthProjection.fcr GrowthProjection.environmentalFactor].
    unfold Growth.fcr, Growth.environmentalFactor.
    fold recommendations. fold age. rewrite H. cbn [negb].
    split; [reflexivity | split; [|reflexivity]].
    apply (round_hundredths (140 + age)).
    rewrite inject_Z_plus. change (inject_Z 140) with 140. ring. }
  split; [exact Hgood | split; [exact Hbad |]].
  intros Hage Hnone. destruct (Hbad Hnone) as (_ & Hfcr & Henv).
  split; [|exact Henv]. rewrite Hfcr. subst age. rewrite Hage. reflexivity.
Qed.

Lemma projected_fcr_witness :
  let flock := sample_flock 42 485 in
  let cold := calculateInsideTemperature sample_farm [] 22 45 12 (Some 18) in
  let mild := calculateInsideTemperature sample_farm [] 28 60 12 (Some 18) in
  (GrowthProjection.fcr (calculateGrowthProjections sample_pow flock cold)
   == 1.82
   /\ GrowthProjection.environmentalFactor
        (calculateGrowthProjections sample_pow flock cold) == 0.85)
  /\ (GrowthProjection.fcr (calculateGrowthProjections sample_pow flock mild)
      == 1.2 + 42 * 0.01
      /\ GrowthProjection.environmentalFactor
           (calculateGrowthProjections sample_pow flock mild) == 1).
Proof.
  cbv zeta. split.
  - refine (proj2 (proj2 (projected_fcr sample_pow (sample_flock 42 485)
              (calculateInsideTemperature sample_farm [] 22 45 12 (Some 18))))
              eq_refl _).
    apply hasGoodTemp_false. reflexivity.
  - refine (proj2 (proj1 (projected_fcr sample_pow (sample_flock 42 485)
              (calculateInsideTemperature sample_farm [] 28 60 12 (Some 18))) _)).
    apply hasGoodTemp_spec. reflexivity.
Defined.

(** C8.  For every flock the base growth rate [max(10, 50 - age * 0.8)]
    is at least 10, hence not negative, and the projector's outputs are
    ordered: [averageWeight <= projectedWeight7d <= projectedWeight14d]. *)
Theorem projected_weights_ordered (Math_pow : Q -> Q -> Q) (flock : Flock.t)
  (currentEnvironment : EnvironmentalCalculation.t) :
  let projection := calculateGrowthProjections Math_pow flock currentEnvironment in
  0 <= Growth.baseGrowthRate (Flock.currentAge flock)
  /\ Flock.averageWeight flock <= GrowthProjection.projectedWeight7d projection
  /\ GrowthProjection.projectedWeight7d projection
     <= GrowthProjection.projectedWeight14d projection.
Proof.
  cbv zeta. unfold calculateGrowthProjections.
  cbn [GrowthProjection.projectedWeight7d GrowthProjection.projectedWeight14d].
  unfold Growth.projectedWeight.
  set (recommendations := EnvironmentalCalculation.recommendations currentEnvironment).
  pose proof (baseGrowthRate_at_least_ten (Flock.currentAge flock)) as Hrate.
  pose proof (environmentalFactor_cases recommendations) as Henv.
  set (rate := Growth.baseGrowthRate (Flock.currentAge flock)) in *.
  set (factor := Growth.environmentalFactor recommendations) in *.
  set (weight := Flock.averageWeight flock).
  assert (Hprod : 8.5 <= rate * factor).
  { rewrite Henv. destruct (hasGoodTemp recommendations); lra. }
  split; [lra | split].
  - pose proof (Math_round_lower (weight + rate * factor * 7)). lra.
  - rewrite <- Zle_Qle. apply Math_round_mono. lra.
Qed.

(** * Further properties of the calculations *)

(** ** Sums *)

Lemma fold_sum_shift {A : Type} (g : A -> Q) (rows : list A) (start : Q) :
  fold_left (fun sum x => sum + g x) rows start == start + sum_of g rows.
Proof.
  unfold sum_of. revert start.
  induction rows as [|x rest IH]; intro start; cbn [fold_left].
  - ring.
  - rewrite IH. rewrite (IH (0 + g x)). ring.
Qed.

Lemma sum_of_cons {A : Type} (g : A -> Q) (x : A) (rest : list A) :
  sum_of g (x :: rest) == g x + sum_of g rest.
Proof.
  unfold sum_of at 1. cbn [fold_left]. rewrite fold_sum_shift. ring.
Qed.

Lemma sum_of_nonneg {A : Type} (g : A -> Q) (rows : list A) :
  Forall (fun x => 0 <= g x) rows -> 0 <= sum_of g rows.
Proof.
  induction 1 as [|x rest Hx _ IH].
  - apply Qle_refl.
  - rewrite sum_of_cons. lra.
Qed.

Lemma sum_of_scale {A : Type} (g h : A -> Q) (k : Q) (rows : list A) :
  (forall x, g x == k * h x) -> sum_of g rows == k * sum_of h rows.
Proof.
  intro Hgh. induction rows as [|x rest IH].
  - unfold sum_of. cbn [fold_left]. ring.
  - rewrite !sum_of_cons, IH, Hgh. ring.
Qed.

Lemma Forall_filter_keep {A : Type} (P : A -> Prop) (f : A -> bool) (rows : list A) :
  Forall P rows -> Forall P (filter f rows).
Proof.
  induction 1 as [|x rest Hx _ IH]; cbn [filter]; [constructor|].
  destruct (f x); [constructor; assumption | assumption].
Qed.

(** ** Advisories that come in pairs *)

Lemma has_code_app (code : string) (l1 l2 : list Recommendation.t) :
  has_code code (l1 ++ l2) = has_code code l1 || has_code code l2.
Proof. unfold has_code. apply existsb_app. Qed.

Lemma has_code_actions (code : string) (recommendations : list Recommendation.t) :
  has_code code recommendations
  = existsb (fun a => (a =? code)%string) (actions recommendations).
Proof.
  unfold has_code, actions.
  induction recommendations as [|r rest IH]; [reflexivity|].
  cbn [existsb map]. now rewrite IH.
Qed.

(** What the tests of the last three blocks say about the first. *)
Lemma temperature_test_of_equipment_tests (targets : Targets.t)
  (insideTemp totalHeating : Q) (fans heaters : nat) :
  Targets.tempMin targets < Targets.tempMax targets ->
  let low := Js.lt insideTemp (Targets.tempMin targets) in
  let high := Js.gt insideTemp (Targets.tempMax targets) in
  (Js.gt totalHeating 10 && high = true -> low = false /\ high = true)
  /\ ((1 <? fans)%nat && Js.ge insideTemp (Targets.tempMin targets)
      && Js.le insideTemp (Targets.tempMax targets) = true ->
      low = false /\ high = false)
  /\ ((heaters =? 0)%nat && Js.lt insideTemp (Targets.tempMin targets - 2) = true ->
      low = true).
Proof.
  intro Hband. cbv zeta. split; [|split]; intro H.
  - apply andb_true_iff in H as [_ H]. split; [|exact H].
    apply lt_false. order_facts. lra.
  - apply andb_true_iff in H as [H Hle]. apply andb_true_iff in H as [_ Hge].
    split; [apply lt_false | unfold Js.gt; apply lt_false]; order_facts; lra.
  - apply andb_true_iff in H as [_ H]. apply lt_spec. order_facts. lra.
Qed.

(** X1.  The three equipment advisories only ever accompany the matching
    temperature advisory: [activate_heating] comes with
    [temperature_low], [optimize_energy] with [temperature_high] and
    [optimize_fans] with [temperature_good]. *)
Theorem equipment_advisories_follow_temperature
  (insideTemp insideHumidity age totalHeating totalCooling : Q)
  (equipment : list Equipment.t) :
  let recommendations :=
    generateRecommendations insideTemp insideHumidity age
      totalHeating totalCooling equipment in
  (has_code "activate_heating" recommendations = true ->
   has_code "temperature_low" recommendations = true)
  /\ (has_code "optimize_energy" recommendations = true ->
      has_code "temperature_high" recommendations = true)
  /\ (has_code "optimize_fans" recommendations = true ->
      has_code "temperature_good" recommendations = true).
Proof.
  cbv zeta. rewrite !has_code_actions, generateRecommendations_actions.
  rewrite !existsb_app.
  rewrite temperature_block_actions, humidity_block_actions,
    energy_block_actions, fans_block_actions, heating_block_actions.
  destruct (temperature_test_of_equipment_tests (targets_for age) insideTemp
              totalHeating
              (List.length (filter (is_active_of "fan") equipment))
              (List.length (filter (is_active_of "heater") equipment))
              (targets_for_ordered age)) as (Henergy & Hfans & Hheating).
  cbv zeta in Henergy, Hfans, Hheating.
  set (energy := Js.gt totalHeating 10 && _) in *.
  set (fewer_fans := (1 <? _)%nat && _ && _) in *.
  set (heating := (_ =? 0)%nat && _) in *.
  set (low := Js.lt insideTemp _) in *.
  set (high := Js.gt insideTemp _) in *.
  repeat split; intro H.
  - destruct heating.
    + subst low. rewrite (Hheating eq_refl). reflexivity.
    + exfalso. destruct low, high, energy, fewer_fans;
        repeat match goal with
        | H : context [ if ?b then _ else _ ] |- _ => destruct b
        end; cbn in H; discriminate H.
  - destruct energy.
    + destruct (Henergy eq_refl) as [Hl Hh]. subst low high.
      rewrite Hl, Hh. reflexivity.
    + exfalso. destruct low, high, heating, fewer_fans;
        repeat match goal with
        | H : context [ if ?b then _ else _ ] |- _ => destruct b
        end; cbn in H; discriminate H.
  - destruct fewer_fans.
    + destruct (Hfans eq_refl) as [Hl Hh]. subst low high.
      rewrite Hl, Hh. reflexivity.
    + exfalso. destruct low, high, heating, energy;
        repeat match goal with
        | H : context [ if ?b then _ else _ ] |- _ => destruct b
        end; cbn in H; discriminate H.
Qed.

Lemma equipment_advisories_follow_temperature_witness :
  has_code "activate_heating" (generateRecommendations 20 60 18 0 0 []) = true
  /\ has_code "temperature_low" (generateRecommendations 20 60 18 0 0 []) = true.
Proof.
  split; [reflexivity |].
  exact (proj1 (equipment_advisories_follow_temperature 20 60 18 0 0 [])
           eq_refl).
Defined.

(** ** The age bands *)

Lemma ageKey_nonneg (age : Q) : 0 <= age -> (0 <= ageKey age)%Z.
Proof.
  intro H. unfold ageKey, Js.Math_floor.
  assert (0 <= Qfloor (age / 7))%Z; [|lia].
  change 0%Z with (Qfloor 0). apply Qfloor_resp_le.
  unfold Qdiv. apply Qmult_le_0_compat; [exact H | discriminate].
Qed.

Lemma ageKey_mono (a b : Q) : a <= b -> (ageKey a <= ageKey b)%Z.
Proof.
  intro H. unfold ageKey, Js.Math_floor.
  assert (Qfloor (a / 7) <= Qfloor (b / 7))%Z; [|lia].
  apply Qfloor_resp_le. unfold Qdiv.
  apply Qmult_le_compat_r; [exact H | discriminate].
Qed.

Lemma ageKey_multiple (age : Q) : exists week : Z, ageKey age = (week * 7)%Z.
Proof. exists (Js.Math_floor (age / 7)). reflexivity. Qed.

Lemma ageKey_negative (age : Q) : age < 0 -> (ageKey age < 0)%Z.
Proof.
  intro H. unfold ageKey, Js.Math_floor.
  assert (Qfloor (age / 7) < 0)%Z; [|lia].
  rewrite Zlt_Qlt. apply Qle_lt_trans with (age / 7); [apply Qfloor_le|].
  change (inject_Z 0) with 0.
  setoid_replace (age / 7) with (age * (1 # 7)) by (unfold Qdiv; reflexivity).
  lra.
Qed.

Lemma ageKey_from_35 (age : Q) : 35 <= age -> (35 <= ageKey age)%Z.
Proof.
  intro H. apply (ageKey_mono 35 age) in H.
  change (ageKey 35) with 35%Z in H. exact H.
Qed.

(** X2.  Outside the table the generator falls back on the last band: a
    negative age, like every age from 35 days on, is judged against the
    35-day band (18 to 21 degrees, 70 percent). *)
Theorem band_outside_the_table (age : Q) :
  age < 0 \/ 35 <= age -> targets_for age = Targets.mk 18 21 70 45.
Proof.
  intros [Hneg | Hold]; unfold targets_for.
  - pose proof (ageKey_negative age Hneg) as Hk.
    unfold AGE_TARGETS. cbn [lookup_targets].
    repeat match goal with
    | |- context [ (?k =? ageKey age)%Z ] =>
        destruct (Z.eqb_spec k (ageKey age)); [lia|]
    end. reflexivity.
  - pose proof (ageKey_from_35 age Hold) as Hk.
    unfold AGE_TARGETS. cbn [lookup_targets].
    repeat match goal with
    | |- context [ (?k =? ageKey age)%Z ] =>
        destruct (Z.eqb_spec k (ageKey age)); [try lia; reflexivity|]
    end. reflexivity.
Qed.

Lemma band_outside_the_table_witness :
  targets_for (-3) = Targets.mk 18 21 70 45.
Proof.
  exact (band_outside_the_table (-3) (or_introl eq_refl)).
Defined.

(** X3.  From hatching on the bands only fall with age: an older flock
    is never asked for a higher minimum or maximum temperature than a
    younger one. *)
Theorem bands_fall_with_age (a b : Q) :
  0 <= a -> a <= b ->
  Targets.tempMin (targets_for b) <= Targets.tempMin (targets_for a)
  /\ Targets.tempMax (targets_for b) <= Targets.tempMax (targets_for a).
Proof.
  intros Ha Hab.
  pose proof (ageKey_nonneg a Ha) as Hka.
  pose proof (ageKey_mono a b Hab) as Hkab.
  destruct (ageKey_multiple a) as [wa Hwa].
  destruct (ageKey_multiple b) as [wb Hwb].
  unfold targets_for, AGE_TARGETS. cbn [lookup_targets].
  repeat match goal with
  | |- context [ (?k =? ageKey a)%Z ] => destruct (Z.eqb_spec k (ageKey a))
  end;
  repeat match goal with
  | |- context [ (?k =? ageKey b)%Z ] => destruct (Z.eqb_spec k (ageKey b))
  end;
  try (exfalso; lia); split; cbn; discriminate.
Qed.

Lemma bands_fall_with_age_witness :
  Targets.tempMin (targets_for 30) <= Targets.tempMin (targets_for 3)
  /\ Targets.tempMax (targets_for 30) <= Targets.tempMax (targets_for 3).
Proof.
  apply (bands_fall_with_age 3 30); discriminate.
Defined.

(** ** Rows the simulator passes over *)

Lemma filter_without {A : Type} (f : A -> bool) (before after : list A) (x : A) :
  f x = false -> filter f (before ++ x :: after) = filter f (before ++ after).
Proof.
  intro H. rewrite !filter_app. cbn [filter]. now rewrite H.
Qed.

(** X4.  A row that is neither an active heater, nor an active fan, nor
    an inlet (a switched-off heater or fan, a row of an unknown type)
    changes nothing: wherever it stands in the equipment list, the
    simulation returns the same result as without it. *)
Theorem idle_rows_change_nothing (farm : Farm.t)
  (before after : list Equipment.t) (row : Equipment.t)
  (outsideTemp outsideHumidity windSpeed : Q) (flockAge : option Q) :
  idle_row row = true ->
  calculateInsideTemperature farm (before ++ row :: after)
    outsideTemp outsideHumidity windSpeed flockAge
  = calculateInsideTemperature farm (before ++ after)
      outsideTemp outsideHumidity windSpeed flockAge.
Proof.
  unfold idle_row. intro H.
  apply andb_true_iff in H as [H Hinlet].
  apply andb_true_iff in H as [Hheater Hfan].
  apply negb_true_iff in Hinlet, Hheater, Hfan.
  unfold calculateInsideTemperature, generateRecommendations,
    Sim.insideHumidity, Sim.insideTemp_final, Sim.insideTemp_cooled,
    Sim.coolingEffect, Sim.insideTemp_heated, Sim.heatingEffect,
    Sim.totalHeating, Sim.totalCooling, Sim.ventilationEffect,
    Sim.activeHeaters, Sim.activeFans, Sim.inlets.
  rewrite !(filter_without (is_active_of "heater") before after row Hheater).
  rewrite !(filter_without (is_active_of "fan") before after row Hfan).
  rewrite !(filter_without
              (fun eq => (Equipment.type eq =? "inlet")%string)
              before after row Hinlet).
  reflexivity.
Qed.

Lemma idle_rows_change_nothing_witness :
  calculateInsideTemperature sample_farm
    ([heater_row 15 45 true] ++ fan_row 120 100 false :: [inlet_row 2 30 false])
    22 45 12 None
  = calculateInsideTemperature sample_farm
      ([heater_row 15 45 true] ++ [inlet_row 2 30 false]) 22 45 12 None.
Proof.
  exact (idle_rows_change_nothing sample_farm [heater_row 15 45 true]
           [inlet_row 2 30 false] (fan_row 120 100 false) 22 45 12 None
           eq_refl).
Defined.

(** ** Heating warms, cooling cools *)

Lemma totalHeating_as_sum (equipment : list Equipment.t) :
  Sim.totalHeating equipment
  = sum_of (fun heater =>
              Js.or_num (Equipment.spec_field Specification.power heater) 0
              * Js.or_num (Equipment.currentSetting heater) 0 / 100)
      (Sim.activeHeaters equipment).
Proof. reflexivity. Qed.

Lemma totalCooling_as_sum (equipment : list Equipment.t) :
  Sim.totalCooling equipment
  = sum_of (fun fan =>
              Js.or_num (Equipment.spec_field Specification.diameter fan) 0
              * EQUIPMENT_SPECS.fan.airflowFactor
              * Js.or_num (Equipment.currentSetting fan) 0 / 100)
      (Sim.activeFans equipment).
Proof. reflexivity. Qed.

Lemma totals_nonneg (equipment : list Equipment.t) :
  Forall nonnegative_row equipment ->
  0 <= Sim.totalHeating equipment /\ 0 <= Sim.totalCooling equipment.
Proof.
  intro Hrows. rewrite totalHeating_as_sum, totalCooling_as_sum. split.
  - apply sum_of_nonneg. apply Forall_filter_keep.
    apply Forall_impl with (2 := Hrows). intros eq (Hp & _ & Hs).
    unfold Qdiv. apply Qmult_le_0_compat; [|discriminate].
    now apply Qmult_le_0_compat.
  - apply sum_of_nonneg. apply Forall_filter_keep.
    apply Forall_impl with (2 := Hrows). intros eq (_ & Hd & Hs).
    unfold Qdiv. apply Qmult_le_0_compat; [|discriminate].
    apply Qmult_le_0_compat; [|exact Hs].
    apply Qmult_le_0_compat; [exact Hd | discriminate].
Qed.

Lemma heatingEffect_nonneg (farm : Farm.t) (equipment : list Equipment.t) :
  0 < Sim.volume farm -> Forall nonnegative_row equipment ->
  0 <= Sim.heatingEffect farm equipment.
Proof.
  intros Hv Hrows. destruct (totals_nonneg equipment Hrows) as [Hh _].
  unfold Sim.heatingEffect, Qdiv.
  apply Qmult_le_0_compat.
  - apply Qmult_le_0_compat; [|discriminate].
    apply Qmult_le_0_compat; [exact Hh | discriminate].
  - apply Qlt_le_weak, Qinv_lt_0_compat.
    apply Qlt_le_trans with (Sim.volume farm * (1 # 100)); [lra|].
    apply Qle_refl.
Qed.

(** X5.  With a positive volume and non-negative heater powers, fan
    diameters and settings, heating never cools and the fans never heat:
    both totals are non-negative, [insideTemp] after the heating step is
    at least [outsideTemp], the cooling effect is not negative, and
    [insideTemp] after the cooling step is at most [insideTemp] after the
    heating step.  (No lower bound on the cooled temperature is stated
    here.) *)
Theorem heating_warms_cooling_cools (farm : Farm.t)
  (equipment : list Equipment.t) (outsideTemp : Q) :
  0 < Sim.volume farm ->
  Forall nonnegative_row equipment ->
  0 <= Sim.totalHeating equipment
  /\ 0 <= Sim.totalCooling equipment
  /\ outsideTemp <= Sim.insideTemp_heated farm equipment outsideTemp
  /\ 0 <= Sim.coolingEffect farm equipment outsideTemp
  /\ Sim.insideTemp_cooled farm equipment outsideTemp
     <= Sim.insideTemp_heated farm equipment outsideTemp.
Proof.
  intros Hv Hrows.
  destruct (totals_nonneg equipment Hrows) as [Hh Hc].
  pose proof (heatingEffect_nonneg farm equipment Hv Hrows) as Heff.
  assert (Hcool : 0 <= Sim.coolingEffect farm equipment outsideTemp).
  { unfold Sim.coolingEffect, Js.Math_min, Js.Math_max. cbv zeta.
    unfold Sim.insideTemp_heated.
    apply Q.min_glb; [|lra].
    unfold Qdiv. apply Qmult_le_0_compat.
    - apply Qmult_le_0_compat; [|apply Q.le_max_r].
      apply Qmult_le_0_compat; [exact Hc | discriminate].
    - apply Qlt_le_weak, Qinv_lt_0_compat, Hv. }
  repeat split; try assumption.
  - unfold Sim.insideTemp_heated. lra.
  - unfold Sim.insideTemp_cooled. lra.
Qed.

Lemma heating_warms_cooling_cools_witness :
  22 <= Sim.insideTemp_heated sample_farm
          [heater_row 15 45 true; fan_row 120 100 true] 22
  /\ Sim.insideTemp_cooled sample_farm
       [heater_row 15 45 true; fan_row 120 100 true] 22
     <= Sim.insideTemp_heated sample_farm
          [heater_row 15 45 true; fan_row 120 100 true] 22.
Proof.
  assert (Hv : 0 < Sim.volume sample_farm) by reflexivity.
  assert (Hrows : Forall nonnegative_row
                    [heater_row 15 45 true; fan_row 120 100 true]).
  { repeat constructor; vm_compute; discriminate. }
  pose proof (heating_warms_cooling_cools sample_farm _ 22 Hv Hrows)
    as (_ & _ & H1 & _ & H2).
  exact (conj H1 H2).
Defined.

(** ** Ventilation and wind *)

Lemma ventilationEffect_as_sum (equipment : list Equipment.t) (windSpeed : Q) :
  Sim.ventilationEffect equipment windSpeed
  = sum_of (fun inlet =>
              Js.or_num (Equipment.currentSetting inlet) 0
              * EQUIPMENT_SPECS.inlet.velocityFactor / 100
              * EQUIPMENT_SPECS.inlet.coolingFactor * windSpeed * 0.1)
      (Sim.inlets equipment).
Proof. reflexivity. Qed.

(** X6.  The simulator's ventilation term is proportional to the wind
    speed and to nothing else of the weather: it is [windSpeed] times the
    term at unit wind, which is 0.00025 times the sum of the inlets'
    openings; so it vanishes in still air and when every inlet is shut. *)
Theorem ventilation_proportional_to_wind (equipment : list Equipment.t)
  (windSpeed : Q) :
  Sim.ventilationEffect equipment windSpeed
  == windSpeed * Sim.ventilationEffect equipment 1
  /\ Sim.ventilationEffect equipment 1
     == 0.00025 * sum_of (fun inlet => Js.or_num (Equipment.currentSetting inlet) 0)
                    (Sim.inlets equipment)
  /\ Sim.ventilationEffect equipment 0 == 0.
Proof.
  rewrite !ventilationEffect_as_sum.
  assert (Hscale : forall w,
    sum_of (fun inlet =>
              Js.or_num (Equipment.currentSetting inlet) 0
              * EQUIPMENT_SPECS.inlet.velocityFactor / 100
              * EQUIPMENT_SPECS.inlet.coolingFactor * w * 0.1)
      (Sim.inlets equipment)
    == (0.00025 * w)
       * sum_of (fun inlet => Js.or_num (Equipment.currentSetting inlet) 0)
           (Sim.inlets equipment)).
  { intro w. apply sum_of_scale. intro inlet.
    unfold EQUIPMENT_SPECS.inlet.velocityFactor,
      EQUIPMENT_SPECS.inlet.coolingFactor. field. }
  split; [|split].
  - rewrite (Hscale windSpeed), (Hscale 1). ring.
  - rewrite (Hscale 1). ring.
  - rewrite (Hscale 0). ring.
Qed.

(** ** Humidity only falls *)

(** X7.  When the outside temperature is above absolute zero and the
    outside humidity is not negative, the simulated humidity, before it
    is rounded, never exceeds [max 30 outsideHumidity]: warming the air
    lowers the relative humidity, and only the floor of 30 can lift it. *)
Theorem humidity_never_rises (farm : Farm.t) (equipment : list Equipment.t)
  (outsideTemp outsideHumidity windSpeed : Q) :
  - 273.15 < outsideTemp ->
  0 <= outsideHumidity ->
  Sim.insideHumidity farm equipment outsideTemp outsideHumidity windSpeed
  <= Qmax 30 outsideHumidity.
Proof.
  intros Hzero Hhum. unfold Sim.insideHumidity. cbv zeta.
  set (insideTemp := Sim.insideTemp_final farm equipment outsideTemp windSpeed).
  destruct (Js.gt insideTemp outsideTemp) eqn:Hgt; [|apply Q.le_max_r].
  order_facts. unfold Js.Math_min, Js.Math_max.
  apply Qle_trans with
    (Qmax 30 (outsideHumidity
              * ((outsideTemp + 273.15) / (insideTemp + 273.15))));
    [apply Q.le_min_r|].
  apply Q.max_le_compat_l.
  assert (Hden : 0 < insideTemp + 273.15) by lra.
  assert (Hratio : (outsideTemp + 273.15) / (insideTemp + 273.15) <= 1).
  { apply Qle_shift_div_r; [exact Hden | lra]. }
  assert (Hratio0 : 0 <= (outsideTemp + 273.15) / (insideTemp + 273.15)).
  { apply Qle_shift_div_l; [exact Hden | lra]. }
  nra.
Qed.

Lemma humidity_never_rises_witness :
  Sim.insideHumidity sample_farm [heater_row 15 45 true] 22 45 12
  <= Qmax 30 45.
Proof.
  apply (humidity_never_rises sample_farm [heater_row 15 45 true] 22 45 12);
    reflexivity || discriminate.
Defined.

(** ** The projector on the simulator's result *)

Lemma hasGoodTemp_generated
  (insideTemp insideHumidity age totalHeating totalCooling : Q)
  (equipment : list Equipment.t) :
  hasGoodTemp (generateRecommendations insideTemp insideHumidity age
                 totalHeating totalCooling equipment)
  = negb (Js.lt insideTemp (Targets.tempMin (targets_for age)))
    && negb (Js.gt insideTemp (Targets.tempMax (targets_for age))).
Proof.
  change hasGoodTemp with (has_code "temperature_good").
  rewrite has_code_actions, generateRecommendations_actions.
  rewrite !existsb_app.
  rewrite temperature_block_actions, humidity_block_actions,
    energy_block_actions, fans_block_actions, heating_block_actions.
  destruct (Js.lt insideTemp _), (Js.gt insideTemp _);
    repeat match goal with
    | |- context [ if ?b then _ else _ ] => destruct b
    end; reflexivity.
Qed.

(** X8.  For any result whose recommendations are those
    [generateRecommendations] returns for an inside temperature and an
    age, the projector applies the 15 percent growth penalty exactly when
    that temperature is below [tempMin] or above [tempMax] of the band
    for that age, whatever [currentAge] the flock record carries. *)
Theorem penalty_iff_outside_band (Math_pow : Q -> Q -> Q) (flock : Flock.t)
  (result : EnvironmentalCalculation.t)
  (insideTemp insideHumidity age totalHeating totalCooling : Q)
  (equipment : list Equipment.t) :
  EnvironmentalCalculation.recommendations result
  = generateRecommendations insideTemp insideHumidity age totalHeating
      totalCooling equipment ->
  GrowthProjection.environmentalFactor
    (calculateGrowthProjections Math_pow flock result)
  == if Js.lt insideTemp (Targets.tempMin (targets_for age)) then 0.85
     else if Js.gt insideTemp (Targets.tempMax (targets_for age)) then 0.85
     else 1.
Proof.
  intro Hrecs. unfold calculateGrowthProjections.
  cbn [GrowthProjection.environmentalFactor].
  unfold Growth.environmentalFactor. rewrite Hrecs, hasGoodTemp_generated.
  destruct (Js.lt insideTemp _), (Js.gt insideTemp _); reflexivity.
Qed.

Lemma penalty_iff_outside_band_witness :
  GrowthProjection.environmentalFactor
    (calculateGrowthProjections sample_pow (sample_flock 3 60)
       (calculateInsideTemperature sample_farm [heater_row 15 45 true]
          27 60 0 None))
  == 1
  /\ GrowthProjection.environmentalFactor
       (calculateGrowthProjections sample_pow (sample_flock 3 60)
          (calculateInsideTemperature sample_farm [heater_row 15 45 true]
             22 60 0 None))
     == 0.85.
Proof.
  split.
  - exact (penalty_iff_outside_band sample_pow (sample_flock 3 60)
             (calculateInsideTemperature sample_farm [heater_row 15 45 true]
                27 60 0 None)
             (Sim.insideTemp_final sample_farm [heater_row 15 45 true] 27 0)
             (Sim.insideHumidity sample_farm [heater_row 15 45 true] 27 60 0)
             18 (Sim.totalHeating [heater_row 15 45 true])
             (Sim.totalCooling [heater_row 15 45 true])
             [heater_row 15 45 true] eq_refl).
  - exact (penalty_iff_outside_band sample_pow (sample_flock 3 60)
             (calculateInsideTemperature sample_farm [heater_row 15 45 true]
                22 60 0 None)
             (Sim.insideTemp_final sample_farm [heater_row 15 45 true] 22 0)
             (Sim.insideHumidity sample_farm [heater_row 15 45 true] 22 60 0)
             18 (Sim.totalHeating [heater_row 15 45 true])
             (Sim.totalCooling [heater_row 15 45 true])
             [heater_row 15 45 true] eq_refl).
Defined.

(** ** Density and consumption targets *)





Lemma week_of_ageKey (age : Q) :
  Js.Math_floor (inject_Z (ageKey age) / 7) = Js.Math_floor (age / 7).
Proof.
  unfold ageKey, Js.Math_floor.
  set (week := Qfloor (age / 7)).
  rewrite <- (Qfloor_Z week) at 2. apply Qfloor_comp.
  rewrite inject_Z_mult. change (inject_Z 7) with 7. field.
Qed.

Lemma week_nonneg (age : Q) : 0 <= age -> (0 <= Js.Math_floor (age / 7))%Z.
Proof.
  intro H. pose proof (ageKey_nonneg age H) as Hk. unfold ageKey in Hk. lia.
Qed.


(** The base targets by week: the array entry for weeks 0 to 5, the last
    entry otherwise. *)
Lemma base_targets_by_week (age : Q) :
  let week := Js.Math_floor (age / 7) in
  Consumption.baseFeed age
  = (if (week =? 0)%Z then 20 else if (week =? 1)%Z then 35
     else if (week =? 2)%Z then 55 else if (week =? 3)%Z then 80
     else if (week =? 4)%Z then 110 else 150)
  /\ Consumption.baseWater age
     = (if (week =? 0)%Z then 50 else if (week =? 1)%Z then 85
        else if (week =? 2)%Z then 140 else if (week =? 3)%Z then 200
        else if (week =? 4)%Z then 280 else 380).
Proof.
  cbv zeta. unfold Consumption.baseFeed, Consumption.baseWater. cbv zeta.
  rewrite week_of_ageKey. set (week := Js.Math_floor (age / 7)).
  unfold array_get.
  destruct (Z.ltb_spec week 0) as [Hneg | Hpos].
  - repeat match goal with
    | |- context [ (week =? ?k)%Z ] => destruct (Z.eqb_spec week k); [lia|]
    end. split; reflexivity.
  - destruct (Z.eqb_spec week 0) as [->|]; [split; reflexivity|].
    destruct (Z.eqb_spec week 1) as [->|]; [split; reflexivity|].
    destruct (Z.eqb_spec week 2) as [->|]; [split; reflexivity|].
    destruct (Z.eqb_spec week 3) as [->|]; [split; reflexivity|].
    destruct (Z.eqb_spec week 4) as [->|]; [split; reflexivity|].
    destruct (Z.eqb_spec week 5) as [->|]; [split; reflexivity|].
    assert (Hn : (6 <= Z.to_nat week)%nat) by lia.
    destruct (Z.to_nat week) as [|[|[|[|[|[|beyond]]]]]]; try lia.
    cbn [nth_error]. destruct beyond; split; reflexivity.
Qed.

(** X10.  The arrays inside [calculateConsumptionTargets] are the tables
    of [CONSUMPTION_TARGETS]: for an age from 0 to under 42 days the base
    feed and water targets are the table entries under [ageKey].  A
    negative age, like every age from 35 days on, gets the last entries,
    150 and 380. *)
Theorem consumption_targets_follow_the_table (age : Q) :
  (0 <= age -> age < 42 ->
   lookup_number CONSUMPTION_TARGETS.feed (ageKey age)
   = Some (Consumption.baseFeed age)
   /\ lookup_number CONSUMPTION_TARGETS.water (ageKey age)
      = Some (Consumption.baseWater age))
  /\ (age < 0 \/ 35 <= age ->
      Consumption.baseFeed age = 150 /\ Consumption.baseWater age = 380).
Proof.
  destruct (base_targets_by_week age) as [Hfeed Hwater]. cbv zeta in *.
  rewrite Hfeed, Hwater.
  split.
  - intros Hlo Hhi.
    pose proof (week_nonneg age Hlo) as Hw.
    assert (Hw6 : (Js.Math_floor (age / 7) < 6)%Z).
    { unfold Js.Math_floor. rewrite Zlt_Qlt.
      apply Qle_lt_trans with (age / 7); [apply Qfloor_le|].
      change (inject_Z 6) with 6.
      setoid_replace (age / 7) with (age * (1 # 7)) by (unfold Qdiv; reflexivity).
      lra. }
    unfold ageKey. remember (Js.Math_floor (age / 7)) as week eqn:Eweek.
    clear Eweek.
    unfold CONSUMPTION_TARGETS.feed, CONSUMPTION_TARGETS.water.
    cbn [lookup_number]. clear Hfeed Hwater.
    assert (Hweek : week = 0%Z \/ week = 1%Z \/ week = 2%Z \/ week = 3%Z
                    \/ week = 4%Z \/ week = 5%Z) by lia.
    destruct Hweek as [E | [E | [E | [E | [E | E]]]]];
      subst week; split; reflexivity.
  - intros [Hneg | Hold].
    + pose proof (ageKey_negative age Hneg) as Hk. unfold ageKey in Hk.
      set (week := Js.Math_floor (age / 7)) in *.
      repeat match goal with
      | |- context [ (week =? ?k)%Z ] => destruct (Z.eqb_spec week k); [lia|]
      end. split; reflexivity.
    + pose proof (ageKey_from_35 age Hold) as Hk. unfold ageKey in Hk.
      set (week := Js.Math_floor (age / 7)) in *.
      repeat match goal with
      | |- context [ (week =? ?k)%Z ] => destruct (Z.eqb_spec week k); [lia|]
      end. split; reflexivity.
Qed.

Lemma consumption_targets_follow_the_table_witness :
  lookup_number CONSUMPTION_TARGETS.feed (ageKey 18)
  = Some (Consumption.baseFeed 18)
  /\ Consumption.baseFeed (-1) = 150.
Proof.
  split.
  - refine (proj1 (proj1 (consumption_targets_follow_the_table 18) _ _));
      reflexivity || discriminate.
  - exact (proj1 (proj2 (consumption_targets_follow_the_table (-1))
                    (or_introl eq_refl))).
Defined.



(** ** Growth against the standard curve *)

Lemma round1_zero : round1 0 == 0.
Proof. reflexivity. Qed.

(** X12.  For a flock of non-negative age, and a power function that is
    not negative there, the standard weight is at least 40 g, so the
    quotient is defined, and [growthRateVsStandard] has the sign of the
    gap to the standard: not negative at or above the standard weight,
    not positive at or below it, zero on it. *)
Theorem growth_rate_sign (Math_pow : Q -> Q -> Q) (flock : Flock.t)
  (currentEnvironment : EnvironmentalCalculation.t) :
  (0 <= Flock.currentAge flock)%Z ->
  0 <= Math_pow (inject_Z (Flock.currentAge flock)) 1.5 ->
  let standardWeight :=
    getStandardWeight Math_pow (inject_Z (Flock.currentAge flock)) in
  let projection := calculateGrowthProjections Math_pow flock currentEnvironment in
  40 <= standardWeight
  /\ (standardWeight <= Flock.averageWeight flock ->
      0 <= GrowthProjection.growthRateVsStandard projection)
  /\ (Flock.averageWeight flock <= standardWeight ->
      GrowthProjection.growthRateVsStandard projection <= 0).
Proof.
  intros Hage Hpow. cbv zeta.
  assert (Hstd : 40 <= getStandardWeight Math_pow (inject_Z (Flock.currentAge flock))).
  { unfold getStandardWeight.
    assert (0 <= inject_Z (Flock.currentAge flock))
      by (change 0 with (inject_Z 0); now rewrite <- Zle_Qle).
    lra. }
  split; [exact Hstd|].
  unfold calculateGrowthProjections.
  cbn [GrowthProjection.growthRateVsStandard].
  set (std := getStandardWeight Math_pow (inject_Z (Flock.currentAge flock))) in *.
  set (weight := Flock.averageWeight flock).
  change (inject_Z (Js.Math_round ((weight / std - 1) * 100 * 10)) / 10)
    with (round1 ((weight / std - 1) * 100)).
  assert (Hpos : 0 < std) by lra.
  split; intro H.
  - rewrite <- round1_zero. apply round1_mono.
    assert (1 <= weight / std) by (apply Qle_shift_div_l; [exact Hpos | lra]).
    lra.
  - rewrite <- round1_zero. apply round1_mono.
    assert (weight / std <= 1) by (apply Qle_shift_div_r; [exact Hpos | lra]).
    lra.
Qed.

Lemma growth_rate_sign_witness :
  let projection :=
    calculateGrowthProjections sample_pow (sample_flock 0 40)
      (calculateInsideTemperature sample_farm [] 22 45 12 None) in
  0 <= GrowthProjection.growthRateVsStandard projection
  /\ GrowthProjection.growthRateVsStandard projection <= 0.
Proof.
  cbv zeta.
  assert (Hage : (0 <= Flock.currentAge (sample_flock 0 40))%Z) by discriminate.
  assert (Hpow : 0 <= sample_pow (inject_Z (Flock.currentAge (sample_flock 0 40))) 1.5)
    by discriminate.
  pose proof (growth_rate_sign sample_pow (sample_flock 0 40)
                (calculateInsideTemperature sample_farm [] 22 45 12 None)
                Hage Hpow) as (_ & Hup & Hdown).
  split; [apply Hup | apply Hdown]; discriminate.
Defined.

(** * The store *)

(** ** Insertion-ordered maps *)

Lemma get_set_same {V : Type} (m : JsMap.t V) (key : string) (value : V) :
  JsMap.get (JsMap.set m key value) key = Some value.
Proof.
  induction m as [|[k v] rest IH]; cbn [JsMap.set JsMap.get].
  - now rewrite String.eqb_refl.
  - destruct (k =? key)%string eqn:E; cbn [JsMap.get]; rewrite E; auto.
Qed.

Lemma get_set_other {V : Type} (m : JsMap.t V) (key other : string) (value : V) :
  other <> key ->
  JsMap.get (JsMap.set m key value) other = JsMap.get m other.
Proof.
  intro Hne. induction m as [|[k v] rest IH]; cbn [JsMap.set JsMap.get].
  - destruct (String.eqb_spec key other); [congruence | reflexivity].
  - destruct (String.eqb_spec k key) as [->|]; cbn [JsMap.get].
    + destruct (String.eqb_spec key other); [congruence | reflexivity].
    + now rewrite IH.
Qed.

Lemma keys_set_present {V : Type} (m : JsMap.t V) (key : string) (value : V) :
  JsMap.has m key = true -> JsMap.keys (JsMap.set m key value) = JsMap.keys m.
Proof.
  unfold JsMap.has, JsMap.keys.
  induction m as [|[k v] rest IH]; cbn [JsMap.set JsMap.get map fst].
  - discriminate.
  - destruct (k =? key)%string; cbn [map fst]; [reflexivity|].
    intro H. now rewrite IH.
Qed.

Lemma set_absent {V : Type} (m : JsMap.t V) (key : string) (value : V) :
  JsMap.get m key = None -> JsMap.set m key value = m ++ [(key, value)].
Proof.
  induction m as [|[k v] rest IH]; cbn [JsMap.set JsMap.get app]; [reflexivity|].
  destruct (k =? key)%string; [discriminate|]. intro H. now rewrite IH.
Qed.

Lemma get_delete_same {V : Type} (m : JsMap.t V) (key : string) :
  JsMap.get (snd (JsMap.delete m key)) key = None.
Proof.
  unfold JsMap.delete. cbn [snd].
  induction m as [|[k v] rest IH]; cbn [filter fst]; [reflexivity|].
  destruct (k =? key)%string eqn:E; cbn [negb]; [exact IH|].
  cbn [JsMap.get]. now rewrite E.
Qed.

Lemma get_delete_other {V : Type} (m : JsMap.t V) (key other : string) :
  other <> key ->
  JsMap.get (snd (JsMap.delete m key)) other = JsMap.get m other.
Proof.
  intro Hne. unfold JsMap.delete. cbn [snd].
  induction m as [|[k v] rest IH]; cbn [filter fst JsMap.get]; [reflexivity|].
  destruct (String.eqb_spec k key) as [->|]; cbn [negb].
  - destruct (String.eqb_spec key other); [congruence | exact IH].
  - cbn [JsMap.get]. now rewrite IH.
Qed.

Lemma delete_absent {V : Type} (m : JsMap.t V) (key : string) :
  JsMap.get m key = None -> JsMap.delete m key = (false, m).
Proof.
  intro H. unfold JsMap.delete, JsMap.has. rewrite H. f_equal.
  induction m as [|[k v] rest IH]; cbn [filter fst]; [reflexivity|].
  cbn [JsMap.get] in H. destruct (k =? key)%string; [discriminate|].
  cbn [negb]. now rewrite IH.
Qed.

(** ** Equipment rows *)

(** X13.  A created row is stored under its id with every field as
    given: it is the given row with that id, and [getEquipment] then
    returns it; the rows under other ids are untouched.  When the id is
    new, the row comes last in its farm's list and the lists of the other
    farms do not change. *)
Theorem created_equipment_is_stored (st : MemStorage.t) (id : string)
  (insertEquipment : InsertEquipment.t) :
  let st' := fst (MemStorage.createEquipment st id insertEquipment) in
  let row := snd (MemStorage.createEquipment st id insertEquipment) in
  row = Equipment.mk id
          (InsertEquipment.farmId insertEquipment)
          (InsertEquipment.type insertEquipment)
          (InsertEquipment.name insertEquipment)
          (InsertEquipment.specification insertEquipment)
          (InsertEquipment.isActive insertEquipment)
          (InsertEquipment.currentSetting insertEquipment)
  /\ MemStorage.getEquipment st' id = Some row
  /\ (forall other, other <> id ->
        MemStorage.getEquipment st' other = MemStorage.getEquipment st other)
  /\ (MemStorage.getEquipment st id = None ->
      forall farmId,
        MemStorage.getEquipmentByFarm st' farmId
        = MemStorage.getEquipmentByFarm st farmId
          ++ (if is_string (InsertEquipment.farmId insertEquipment) farmId
              then [row] else [])).
Proof.
  cbv zeta. unfold MemStorage.createEquipment, MemStorage.getEquipment,
    MemStorage.getEquipmentByFarm.
  cbn [fst snd MemStorage.with_equipment MemStorage.equipment].
  split; [reflexivity|]. split; [apply get_set_same|].
  split.
  - intros other Hne. now apply get_set_other.
  - intros Hnew farmId. rewrite (set_absent _ _ _ Hnew).
    unfold JsMap.values. rewrite map_app, filter_app.
    cbn [map snd filter Equipment.farmId].
    destruct (is_string _ farmId); reflexivity.
Qed.

Lemma created_equipment_is_stored_witness :
  MemStorage.getEquipment MemStorage.empty "e-1" = None
  /\ MemStorage.getEquipmentByFarm
       (fst (MemStorage.createEquipment MemStorage.empty "e-1"
               (InsertEquipment.mk (Some "f-1"%string) "fan" "Fan 1"
                  (Some (Specification.mk (Some 120) None None))
                  (Some true) (Some 75))))
       "f-1"
     = [ Equipment.mk "e-1" (Some "f-1"%string) "fan" "Fan 1"
           (Some (Specification.mk (Some 120) None None))
           (Some true) (Some 75) ].
Proof.
  split; [reflexivity|].
  exact (proj2 (proj2 (proj2
    (created_equipment_is_stored MemStorage.empty "e-1"
       (InsertEquipment.mk (Some "f-1"%string) "fan" "Fan 1"
          (Some (Specification.mk (Some 120) None None))
          (Some true) (Some 75)))))
    eq_refl "f-1"%string).
Defined.

(** X14.  [updateEquipment] on an id the store does not hold returns
    nothing and leaves the store as it was.  On a stored id it returns
    and stores a row whose [isActive] and [currentSetting] are the given
    ones where the update has the key and the old ones where it has not,
    and whose id, farm, type, name and specification are the old row's;
    the row stays at its place in the map and the rows under other ids
    are untouched. *)
Theorem update_equipment_merges (st : MemStorage.t) (id : string)
  (data : UpdateEquipment.t) :
  (MemStorage.getEquipment st id = None ->
   MemStorage.updateEquipment st id data = (st, None))
  /\ (forall old, MemStorage.getEquipment st id = Some old ->
      exists updated,
        snd (MemStorage.updateEquipment st id data) = Some updated
        /\ MemStorage.getEquipment (fst (MemStorage.updateEquipment st id data)) id
           = Some updated
        /\ Equipment.id updated = Equipment.id old
        /\ Equipment.farmId updated = Equipment.farmId old
        /\ Equipment.type updated = Equipment.type old
        /\ Equipment.name updated = Equipment.name old
        /\ Equipment.specification updated = Equipment.specification old
        /\ Equipment.isActive updated
           = match UpdateEquipment.isActive data with
             | Some active => Some active
             | None => Equipment.isActive old
             end
        /\ Equipment.currentSetting updated
           = match UpdateEquipment.currentSetting data with
             | Some setting => Some setting
             | None => Equipment.currentSetting old
             end
        /\ JsMap.keys (MemStorage.equipment (fst (MemStorage.updateEquipment st id data)))
           = JsMap.keys (MemStorage.equipment st)
        /\ (forall other, other <> id ->
              MemStorage.getEquipment (fst (MemStorage.updateEquipment st id data)) other
              = MemStorage.getEquipment st other)).
Proof.
  unfold MemStorage.updateEquipment, MemStorage.getEquipment. split.
  - intro H. now rewrite H.
  - intros old H. rewrite H. exists (MemStorage.merge_update old data).
    cbn [fst snd MemStorage.with_equipment MemStorage.equipment].
    split; [reflexivity|]. split; [apply get_set_same|].
    split; [reflexivity|]. split; [reflexivity|]. split; [reflexivity|].
    split; [reflexivity|]. split; [reflexivity|]. split; [reflexivity|].
    split; [reflexivity|].
    split.
    + apply keys_set_present. unfold JsMap.has. now rewrite H.
    + intros other Hne. now apply get_set_other.
Qed.

Lemma update_equipment_merges_witness :
  let st :=
    fst (MemStorage.createEquipment MemStorage.empty "e-1"
           (InsertEquipment.mk (Some "f-1"%string) "fan" "Fan 1"
              (Some (Specification.mk (Some 120) None None))
              (Some true) (Some 75))) in
  MemStorage.updateEquipment st "e-9" (UpdateEquipment.mk None (Some 40))
  = (st, None)
  /\ exists updated,
       MemStorage.getEquipment
         (fst (MemStorage.updateEquipment st "e-1"
                 (UpdateEquipment.mk None (Some 40)))) "e-1"
       = Some updated
       /\ Equipment.currentSetting updated = Some 40
       /\ Equipment.isActive updated = Some true
       /\ Equipment.name updated = "Fan 1"%string.
Proof.
  cbv zeta. split.
  - exact (proj1 (update_equipment_merges
                    (fst (MemStorage.createEquipment MemStorage.empty "e-1"
                            (InsertEquipment.mk (Some "f-1"%string) "fan" "Fan 1"
                               (Some (Specification.mk (Some 120) None None))
                               (Some true) (Some 75))))
                    "e-9" (UpdateEquipment.mk None (Some 40))) eq_refl).
  - destruct (proj2 (update_equipment_merges
                       (fst (MemStorage.createEquipment MemStorage.empty "e-1"
                               (InsertEquipment.mk (Some "f-1"%string) "fan" "Fan 1"
                                  (Some (Specification.mk (Some 120) None None))
                                  (Some true) (Some 75))))
                       "e-1" (UpdateEquipment.mk None (Some 40)))
                _ eq_refl)
      as (updated & _ & Hget & _ & _ & _ & Hname & _ & Hactive & Hsetting & _).
    exists updated. exact (conj Hget (conj Hsetting (conj Hactive Hname))).
Defined.

(** X15.  [deleteEquipment] answers whether the id was stored; afterwards
    the id is gone, the rows under other ids are untouched, and a second
    deletion answers [false] and changes nothing. *)
Theorem delete_equipment_removes (st : MemStorage.t) (id : string) :
  let st' := fst (MemStorage.deleteEquipment st id) in
  snd (MemStorage.deleteEquipment st id)
  = match MemStorage.getEquipment st id with Some _ => true | None => false end
  /\ MemStorage.getEquipment st' id = None
  /\ (forall other, other <> id ->
        MemStorage.getEquipment st' other = MemStorage.getEquipment st other)
  /\ MemStorage.deleteEquipment st' id = (st', false).
Proof.
  cbv zeta. unfold MemStorage.deleteEquipment, MemStorage.getEquipment.
  change (JsMap.delete (MemStorage.equipment st) id)
    with (JsMap.has (MemStorage.equipment st) id,
          snd (JsMap.delete (MemStorage.equipment st) id)).
  cbn [fst snd MemStorage.with_equipment MemStorage.equipment].
  split; [reflexivity|].
  split; [apply get_delete_same|].
  split; [intros other Hne; now apply get_delete_other|].
  rewrite (delete_absent _ _ (get_delete_same (MemStorage.equipment st) id)).
  reflexivity.
Qed.

Lemma delete_equipment_removes_witness :
  MemStorage.getEquipment
    (fst (MemStorage.deleteEquipment
            (fst (MemStorage.createEquipment MemStorage.empty "e-1"
                    (InsertEquipment.mk (Some "f-1"%string) "fan" "Fan 1" None None None)))
            "e-2"))
    "e-1"
  = Some (Equipment.mk "e-1" (Some "f-1"%string) "fan" "Fan 1" None None None).
Proof.
  refine (eq_trans
    (proj1 (proj2 (proj2
       (delete_equipment_removes
          (fst (MemStorage.createEquipment MemStorage.empty "e-1"
                  (InsertEquipment.mk (Some "f-1"%string) "fan" "Fan 1" None None None)))
          "e-2"%string))) "e-1"%string _) eq_refl).
  discriminate.
Defined.

(** ** Flocks and losses *)

Lemma set_again {V : Type} (m : JsMap.t V) (key : string) (value : V) :
  JsMap.set (JsMap.set m key value) key value = JsMap.set m key value.
Proof.
  induction m as [|[k v] rest IH]; cbn [JsMap.set].
  - now rewrite String.eqb_refl.
  - destruct (k =? key)%string eqn:E; cbn [JsMap.set]; rewrite E;
      [reflexivity | now rewrite IH].
Qed.

Lemma keyed_by_id_set (m : JsMap.t Flock.t) (flock : Flock.t) :
  keyed_by_id m -> keyed_by_id (JsMap.set m (Flock.id flock) flock).
Proof.
  unfold keyed_by_id. induction 1 as [|[k f] rest Hk Hrest IH]; cbn [JsMap.set].
  - constructor; [reflexivity | constructor].
  - destruct (String.eqb_spec k (Flock.id flock)) as [E|].
    + constructor; [cbn [fst snd]; congruence | assumption].
    + constructor; assumption.
Qed.

Lemma mutate_found_absent_id (change : Flock.t -> Flock.t) (m : JsMap.t Flock.t) :
  MemStorage.mutate_found None change m = (None, m).
Proof.
  induction m as [|[k f] rest IH]; cbn [MemStorage.mutate_found is_string];
    [reflexivity | now rewrite IH].
Qed.

Lemma mutate_found_keyed (flockId : string) (change : Flock.t -> Flock.t)
  (m : JsMap.t Flock.t) :
  keyed_by_id m ->
  MemStorage.mutate_found (Some flockId) change m
  = match JsMap.get m flockId with
    | Some flock => (Some (change flock), JsMap.set m flockId (change flock))
    | None => (None, m)
    end.
Proof.
  unfold keyed_by_id.
  induction 1 as [|[k f] rest Hk _ IH];
    cbn [MemStorage.mutate_found is_string JsMap.get JsMap.set]; [reflexivity|].
  cbn [fst snd] in Hk. rewrite Hk, String.eqb_sym.
  destruct (k =? flockId)%string; [reflexivity|].
  rewrite IH. destruct (JsMap.get rest flockId); reflexivity.
Qed.

Lemma flocks_after_mortality (st : MemStorage.t) (id : string)
  (insertRecord : InsertMortality.t) :
  keyed_by_id (MemStorage.flocks st) ->
  MemStorage.flocks (fst (MemStorage.createMortalityRecord st id insertRecord))
  = match InsertMortality.flockId insertRecord with
    | Some flockId =>
        match MemStorage.getFlock st flockId with
        | Some flock =>
            JsMap.set (MemStorage.flocks st) flockId
              (after_losses (InsertMortality.deathCount insertRecord) flock)
        | None => MemStorage.flocks st
        end
    | None => MemStorage.flocks st
    end.
Proof.
  intro Hkeyed. unfold MemStorage.createMortalityRecord, MemStorage.getFlock.
  cbv zeta.
  cbn [MemStorage.with_mortalityRecords MemStorage.flocks].
  fold (after_losses (InsertMortality.deathCount insertRecord)).
  destruct (InsertMortality.flockId insertRecord) as [flockId|].
  - rewrite (mutate_found_keyed flockId _ _ Hkeyed).
    destruct (JsMap.get (MemStorage.flocks st) flockId) as [flock|] eqn:Hget;
      cbn [fst MemStorage.with_flocks MemStorage.flocks]; [|reflexivity].
    assert (Hid : Flock.id flock = flockId).
    { clear - Hkeyed Hget. unfold keyed_by_id in Hkeyed.
      induction Hkeyed as [|[k f] rest Hk _ IH]; [discriminate|].
      cbn [JsMap.get] in Hget. cbn [fst snd] in Hk.
      destruct (String.eqb_spec k flockId); [|now apply IH].
      congruence. }
    cbn [after_losses Flock.id]. rewrite Hid. apply set_again.
  - rewrite mutate_found_absent_id. reflexivity.
Qed.

(** X16.  Recording losses for a stored flock lowers its [chickCount] by
    the death count, but never below zero, and changes no other field of
    it (id, farm, name, initial count, age, weight); every other flock is
    untouched, the record is stored under its id, and the flocks stay
    stored under their own ids. *)
Theorem mortality_lowers_the_count (st : MemStorage.t) (id : string)
  (insertRecord : InsertMortality.t) :
  keyed_by_id (MemStorage.flocks st) ->
  let st' := fst (MemStorage.createMortalityRecord st id insertRecord) in
  let record := snd (MemStorage.createMortalityRecord st id insertRecord) in
  keyed_by_id (MemStorage.flocks st')
  /\ JsMap.get (MemStorage.mortalityRecords st') id = Some record
  /\ MortalityRecord.deathCount record = InsertMortality.deathCount insertRecord
  /\ (forall flockId flock,
        InsertMortality.flockId insertRecord = Some flockId ->
        MemStorage.getFlock st flockId = Some flock ->
        exists flock',
          MemStorage.getFlock st' flockId = Some flock'
          /\ Flock.chickCount flock'
             = Z.max 0 (Flock.chickCount flock
                        - InsertMortality.deathCount insertRecord)
          /\ (0 <= Flock.chickCount flock')%Z
          /\ Flock.id flock' = Flock.id flock
          /\ Flock.farmId flock' = Flock.farmId flock
          /\ Flock.name flock' = Flock.name flock
          /\ Flock.initialChickCount flock' = Flock.initialChickCount flock
          /\ Flock.currentAge flock' = Flock.currentAge flock
          /\ Flock.averageWeight flock' = Flock.averageWeight flock)
  /\ (forall other,
        InsertMortality.flockId insertRecord <> Some other ->
        MemStorage.getFlock st' other = MemStorage.getFlock st other).
Proof.
  intro Hkeyed. cbv zeta.
  pose proof (flocks_after_mortality st id insertRecord Hkeyed) as Hflocks.
  assert (Hrecords :
    MemStorage.mortalityRecords
      (fst (MemStorage.createMortalityRecord st id insertRecord))
    = JsMap.set (MemStorage.mortalityRecords st) id
        (snd (MemStorage.createMortalityRecord st id insertRecord))).
  { unfold MemStorage.createMortalityRecord. cbv zeta.
    destruct (MemStorage.mutate_found _ _ _) as [[found|] flocks]; reflexivity. }
  unfold MemStorage.getFlock. rewrite Hflocks, Hrecords.
  split; [|split; [apply get_set_same | split]].
  - destruct (InsertMortality.flockId insertRecord) as [flockId|]; [|exact Hkeyed].
    unfold MemStorage.getFlock.
    destruct (JsMap.get (MemStorage.flocks st) flockId) as [flock|] eqn:Hget;
      [|exact Hkeyed].
    assert (Hid : Flock.id flock = flockId).
    { clear - Hkeyed Hget. unfold keyed_by_id in Hkeyed.
      induction Hkeyed as [|[k f] rest Hk _ IH]; [discriminate|].
      cbn [JsMap.get] in Hget. cbn [fst snd] in Hk.
      destruct (String.eqb_spec k flockId); [|now apply IH].
      congruence. }
    rewrite <- Hid at 1.
    change (Flock.id flock)
      with (Flock.id (after_losses (InsertMortality.deathCount insertRecord) flock)).
    now apply keyed_by_id_set.
  - unfold MemStorage.createMortalityRecord. cbv zeta.
    destruct (MemStorage.mutate_found _ _ _) as [[found|] flocks]; reflexivity.
  - split.
    + intros flockId flock Hid Hget. rewrite Hid.
      unfold MemStorage.getFlock. rewrite Hget.
      exists (after_losses (InsertMortality.deathCount insertRecord) flock).
      split; [apply get_set_same|].
      cbn [after_losses Flock.chickCount Flock.initialChickCount
             Flock.currentAge Flock.averageWeight Flock.id Flock.farmId
             Flock.name].
      repeat split. apply Z.le_max_l.
    + intros other Hne.
      destruct (InsertMortality.flockId insertRecord) as [flockId|]; [|reflexivity].
      unfold MemStorage.getFlock.
      destruct (JsMap.get (MemStorage.flocks st) flockId); [|reflexivity].
      apply get_set_other. congruence.
Qed.

Lemma mortality_lowers_the_count_witness :
  let st :=
    fst (MemStorage.createFlock MemStorage.empty "k-1"
           (InsertFlock.mk None "Batch A" 1250 1300 18 485)) in
  exists flock',
    MemStorage.getFlock
      (fst (MemStorage.createMortalityRecord st "m-1"
              (InsertMortality.mk (Some "k-1"%string) 2000 None None)))
      "k-1" = Some flock'
    /\ Flock.chickCount flock' = 0%Z.
Proof.
  cbv zeta.
  assert (Hkeyed : keyed_by_id
            (MemStorage.flocks
               (fst (MemStorage.createFlock MemStorage.empty "k-1"
                       (InsertFlock.mk None "Batch A" 1250 1300 18 485))))).
  { repeat constructor. }
  destruct (proj1 (proj2 (proj2 (proj2
    (mortality_lowers_the_count _ "m-1"
       (InsertMortality.mk (Some "k-1"%string) 2000 None None) Hkeyed))))
    "k-1"%string _ eq_refl eq_refl) as (flock' & Hget & Hcount & _).
  exists flock'. split; [exact Hget | exact Hcount].
Defined.

(** ** Today's totals *)

Lemma fold_left_last {A B : Type} (f : A -> B -> A) (rows : list B) (x : B) (a : A) :
  fold_left f (rows ++ [x]) a = f (fold_left f rows a) x.
Proof. now rewrite fold_left_app. Qed.

(** X17.  A loss record under a new id adds its death count to today's
    mortality of a flock exactly when it names that flock and its date
    falls on today; otherwise today's mortality is unchanged.  So a
    record without a date never counts when the date string of a missing
    date is not today's. *)
Theorem todays_mortality_counts_dated_records
  (toDateString : option string -> string) (today : string)
  (st : MemStorage.t) (id : string) (insertRecord : InsertMortality.t)
  (flockId : string) :
  JsMap.get (MemStorage.mortalityRecords st) id = None ->
  let st' := fst (MemStorage.createMortalityRecord st id insertRecord) in
  MemStorage.getTodaysMortality toDateString today st' flockId
  = (MemStorage.getTodaysMortality toDateString today st flockId
     + (if is_string (InsertMortality.flockId insertRecord) flockId
           && (toDateString (InsertMortality.date insertRecord) =? today)%string
        then InsertMortality.deathCount insertRecord else 0))%Z.
Proof.
  intro Hnew. cbv zeta.
  assert (Hrecords :
    MemStorage.mortalityRecords
      (fst (MemStorage.createMortalityRecord st id insertRecord))
    = MemStorage.mortalityRecords st
      ++ [(id, MortalityRecord.mk id (InsertMortality.flockId insertRecord)
                 (InsertMortality.deathCount insertRecord)
                 (InsertMortality.cause insertRecord)
                 (InsertMortality.date insertRecord))]).
  { rewrite <- (set_absent _ _ _ Hnew).
    unfold MemStorage.createMortalityRecord. cbv zeta.
    destruct (MemStorage.mutate_found _ _ _) as [[found|] flocks]; reflexivity. }
  unfold MemStorage.getTodaysMortality. cbv zeta. rewrite Hrecords.
  unfold JsMap.values. rewrite map_app, filter_app.
  cbn [map snd filter MortalityRecord.flockId MortalityRecord.date].
  destruct (is_string _ flockId && _).
  - rewrite fold_left_last. reflexivity.
  - rewrite app_nil_r. lia.
Qed.

Lemma todays_mortality_counts_dated_records_witness :
  MemStorage.getTodaysMortality
    (fun d => match d with Some s => s | None => "Invalid Date"%string end)
    "Mon Nov 02 2026"
    (fst (MemStorage.createMortalityRecord MemStorage.empty "m-1"
            (InsertMortality.mk (Some "k-1"%string) 3 None None)))
    "k-1"
  = 0%Z.
Proof.
  exact (todays_mortality_counts_dated_records
           (fun d => match d with Some s => s | None => "Invalid Date"%string end)
           "Mon Nov 02 2026" MemStorage.empty "m-1"
           (InsertMortality.mk (Some "k-1"%string) 3 None None) "k-1" eq_refl).
Defined.

(** X18.  A feed or water record under a new id, for the flock and dated
    today, adds its amount to today's total of its own kind and leaves
    the other total as it was; a record of any other type, for another
    flock or of another day changes neither. *)
Theorem todays_consumption_by_kind
  (toDateString : option string -> string) (today : string)
  (st : MemStorage.t) (id : string) (insertRecord : InsertFeedWater.t)
  (flockId : string) :
  JsMap.get (MemStorage.feedWaterRecords st) id = None ->
  let st' := fst (MemStorage.createFeedWaterRecord st id insertRecord) in
  let counted :=
    is_string (InsertFeedWater.flockId insertRecord) flockId
    && (toDateString (InsertFeedWater.date insertRecord) =? today)%string in
  let before := MemStorage.getTodaysConsumption toDateString today st flockId in
  let after := MemStorage.getTodaysConsumption toDateString today st' flockId in
  fst after
  = (if counted && (InsertFeedWater.type insertRecord =? "feed")%string
     then fst before + InsertFeedWater.amount insertRecord else fst before)
  /\ snd after
     = (if counted && (InsertFeedWater.type insertRecord =? "water")%string
        then snd before + InsertFeedWater.amount insertRecord else snd before).
Proof.
  intro Hnew. cbv zeta.
  unfold MemStorage.getTodaysConsumption, MemStorage.createFeedWaterRecord.
  cbv zeta. cbn [fst snd MemStorage.with_feedWaterRecords
                   MemStorage.feedWaterRecords].
  rewrite (set_absent _ _ _ Hnew).
  unfold JsMap.values. rewrite map_app, !filter_app.
  cbn [map snd filter FeedWaterRecord.flockId FeedWaterRecord.date].
  destruct (is_string _ flockId && _); cbn [andb filter FeedWaterRecord.type].
  - split.
    + destruct (_ =? "feed")%string;
        [rewrite fold_left_last | rewrite app_nil_r]; reflexivity.
    + destruct (_ =? "water")%string;
        [rewrite fold_left_last | rewrite app_nil_r]; reflexivity.
  - rewrite !app_nil_r. split; reflexivity.
Qed.

Lemma todays_consumption_by_kind_witness :
  let dateString :=
    fun d : option string =>
      match d with Some s => s | None => "Invalid Date"%string end in
  fst (MemStorage.getTodaysConsumption dateString "Mon Nov 02 2026"
         (fst (MemStorage.createFeedWaterRecord MemStorage.empty "r-1"
                 (InsertFeedWater.mk (Some "k-1"%string) "feed" 12.5
                    (Some "Mon Nov 02 2026"%string))))
         "k-1")
  = 0 + 12.5.
Proof.
  cbv zeta.
  exact (proj1 (todays_consumption_by_kind
           (fun d => match d with Some s => s | None => "Invalid Date"%string end)
           "Mon Nov 02 2026" MemStorage.empty "r-1"
           (InsertFeedWater.mk (Some "k-1"%string) "feed" 12.5
              (Some "Mon Nov 02 2026"%string)) "k-1" eq_refl)).
Defined.

(** * The route handler *)

Lemma handler_totalHeating_is_shared (equipment : list Equipment.t) :
  Handler.totalHeating equipment = Sim.totalHeating equipment.
Proof. reflexivity. Qed.

Lemma route_gain_is_twenty_shared (farm : Farm.t)
  (equipment : list Equipment.t) (outsideTemp : Q) :
  0 < Sim.volume farm ->
  Handler.insideTemp_heated farm equipment outsideTemp - outsideTemp
  == 20 * Sim.heatingEffect farm equipment
  /\ Sim.heatingEffect farm equipment
     == 40 * Sim.totalHeating equipment / Sim.volume farm.
Proof.
  intro Hv. unfold Handler.insideTemp_heated, Sim.heatingEffect.
  rewrite handler_totalHeating_is_shared.
  unfold EQUIPMENT_SPECS.heater.efficiencyFactor,
    EQUIPMENT_SPECS.heater.temperatureRise.
  split; field; lra.
Qed.

(** X19.  For the same enclosure and equipment the route handler's
    heating gain is twenty times the shared module's: both take the same
    [totalHeating], the handler divides [0.8 * totalHeating] by a
    thousandth of the volume, the shared module [0.4 * totalHeating] by a
    hundredth of it. *)
Theorem route_heats_twenty_times_more (farm : Farm.t)
  (equipment : list Equipment.t) (outsideTemp : Q) :
  0 < Sim.volume farm ->
  Handler.totalHeating equipment = Sim.totalHeating equipment
  /\ Handler.insideTemp_heated farm equipment outsideTemp - outsideTemp
     == 20 * (Sim.insideTemp_heated farm equipment outsideTemp - outsideTemp)
  /\ Sim.insideTemp_heated farm equipment outsideTemp - outsideTemp
     == 40 * Sim.totalHeating equipment / Sim.volume farm.
Proof.
  intro Hv. split; [reflexivity|].
  destruct (route_gain_is_twenty_shared farm equipment outsideTemp Hv)
    as [H20 H40].
  unfold Sim.insideTemp_heated. split.
  - rewrite H20. ring.
  - rewrite <- H40. ring.
Qed.

Lemma route_heats_twenty_times_more_witness :
  Handler.insideTemp_heated sample_farm [heater_row 15 45 true] 22 - 22
  == 20 * (Sim.insideTemp_heated sample_farm [heater_row 15 45 true] 22 - 22).
Proof.
  exact (proj1 (proj2 (route_heats_twenty_times_more sample_farm
                         [heater_row 15 45 true] 22 eq_refl))).
Defined.

Lemma route_totalCooling_as_sum (equipment : list Equipment.t) :
  Routes.totalCooling equipment
  = sum_of (fun fan =>
              Js.Math_PI
              * (Js.or_num (Equipment.spec_field Specification.diameter fan) 0 / 200) ^ 2
              * Js.or_num (Equipment.currentSetting fan) 0 * 50)
      (filter (is_active_of "fan") equipment).
Proof. reflexivity. Qed.

Lemma route_gain_nonneg (farm : Farm.t) (equipment : list Equipment.t)
  (outsideTemp : Q) :
  0 < Sim.volume farm -> Forall nonnegative_row equipment ->
  0 <= Handler.insideTemp_heated farm equipment outsideTemp - outsideTemp.
Proof.
  intros Hv Hrows.
  destruct (route_gain_is_twenty_shared farm equipment outsideTemp Hv)
    as [H20 _].
  rewrite H20.
  pose proof (heatingEffect_nonneg farm equipment Hv Hrows) as Heff. lra.
Qed.

(** X20.  The handler's cooling step has no cap.  In exact arithmetic,
    with a positive volume and non-negative rows, the cooling effect is
    the heating gain times [totalCooling / (1000 * volume)], so the
    temperature after the step is [outsideTemp] plus the gain times
    [1 - totalCooling / (1000 * volume)]. *)
Theorem route_cooling_is_uncapped (farm : Farm.t)
  (equipment : list Equipment.t) (outsideTemp : Q) :
  0 < Sim.volume farm ->
  Forall nonnegative_row equipment ->
  let gain := Handler.insideTemp_heated farm equipment outsideTemp - outsideTemp in
  Handler.coolingEffect farm equipment outsideTemp
  == gain * (Routes.totalCooling equipment / (1000 * Sim.volume farm))
  /\ Handler.insideTemp_cooled farm equipment outsideTemp
     == outsideTemp
        + gain * (1 - Routes.totalCooling equipment / (1000 * Sim.volume farm)).
Proof.
  intros Hv Hrows. cbv zeta.
  pose proof (route_gain_nonneg farm equipment outsideTemp Hv Hrows) as Hgain.
  set (gain := Handler.insideTemp_heated farm equipment outsideTemp - outsideTemp) in *.
  assert (Heffect :
    Handler.coolingEffect farm equipment outsideTemp
    == gain * (Routes.totalCooling equipment / (1000 * Sim.volume farm))).
  { unfold Handler.coolingEffect. cbv zeta.
    fold gain. unfold Js.Math_max. rewrite (Q.max_l gain 0 Hgain).
    field. lra. }
  split; [exact Heffect|].
  unfold Handler.insideTemp_cooled. rewrite Heffect.
  setoid_replace (Handler.insideTemp_heated farm equipment outsideTemp)
    with (outsideTemp + gain) by (unfold gain; ring).
  ring.
Qed.

Lemma route_cooling_is_uncapped_witness :
  let equipment := [heater_row 15 45 true; fan_row 120 100 true] in
  0 < Sim.volume sample_farm
  /\ Forall nonnegative_row equipment
  /\ Handler.coolingEffect sample_farm equipment 22
     == (Handler.insideTemp_heated sample_farm equipment 22 - 22)
        * (Routes.totalCooling equipment / (1000 * Sim.volume sample_farm)).
Proof.
  cbv zeta.
  assert (Hv : 0 < Sim.volume sample_farm) by reflexivity.
  assert (Hrows : Forall nonnegative_row
                    [heater_row 15 45 true; fan_row 120 100 true]).
  { repeat constructor; vm_compute; discriminate. }
  split; [exact Hv | split; [exact Hrows |]].
  exact (proj1 (route_cooling_is_uncapped sample_farm
                  [heater_row 15 45 true; fan_row 120 100 true] 22 Hv Hrows)).
Defined.

(** X21.  The handler judges every flock against the band 30 to 32
    degrees: it returns one or two advisories, the first of them the one
    temperature advisory ([temperature_low] below 30, [temperature_high]
    above 32, [temperature_good] between), the second, if any,
    [optimize_energy], which only comes with [temperature_high]. *)
Theorem route_advisories (insideTemp totalHeating : Q) :
  let advisories := Handler.recommendations insideTemp totalHeating in
  map Handler.Advisory.action advisories
  = (if Js.lt insideTemp 30 then "temperature_low"%string
     else if Js.gt insideTemp 32 then "temperature_high"%string
     else "temperature_good"%string)
    :: (if Js.gt totalHeating 10 && Js.gt insideTemp 32
        then ["optimize_energy"%string] else [])
  /\ (1 <= List.length advisories <= 2)%nat
  /\ (route_has_code "optimize_energy" advisories = true ->
      route_has_code "temperature_high" advisories = true).
Proof.
  cbv zeta. unfold Handler.recommendations, Handler.targetTempMin,
    Handler.targetTempMax. cbn [app].
  destruct (Js.lt insideTemp 30) eqn:Hlow;
    destruct (Js.gt insideTemp 32) eqn:Hhigh;
    destruct (Js.gt totalHeating 10);
    cbn; repeat split; try lia; intros; try discriminate; try reflexivity;
    exfalso; order_facts; lra.
Qed.

Lemma route_advisories_witness :
  route_has_code "optimize_energy" (Handler.recommendations 35 12) = true
  /\ route_has_code "temperature_high" (Handler.recommendations 35 12) = true.
Proof.
  split; [reflexivity|].
  exact (proj2 (proj2 (route_advisories 35 12)) eq_refl).
Defined.

Lemma equipment_of_other_farm (st : MemStorage.t) (id : string)
  (insertEquipment : InsertEquipment.t) (farmId : string) :
  MemStorage.getEquipment st id = None ->
  is_string (InsertEquipment.farmId insertEquipment) farmId = false ->
  MemStorage.getEquipmentByFarm
    (fst (MemStorage.createEquipment st id insertEquipment)) farmId
  = MemStorage.getEquipmentByFarm st farmId.
Proof.
  intros Hnew Hother.
  unfold MemStorage.createEquipment, MemStorage.getEquipmentByFarm,
    MemStorage.getEquipment in *.
  cbn [fst MemStorage.with_equipment MemStorage.equipment].
  rewrite (set_absent _ _ _ Hnew).
  unfold JsMap.values. rewrite map_app, filter_app.
  cbn [map snd filter Equipment.farmId]. rewrite Hother. apply app_nil_r.
Qed.

(** X22.  [POST /api/calculate-environment] answers 404 "Farm not
    found" exactly when the store has no farm under [farmId], and 200
    otherwise.  The answer depends on the farm's own equipment only: a
    row created under a new id for another farm (or for none) leaves it
    unchanged, and so does the [flockAge] the clients send. *)
Theorem calculate_environment_response (storage : MemStorage.t)
  (body : Handler.CalculateBody.t) :
  let response := Handler.calculate_environment storage body in
  let farmId := Handler.CalculateBody.farmId body in
  (Handler.Response.status response = 404%Z
   <-> MemStorage.getFarm storage farmId = None)
  /\ (Handler.Response.status response = 200%Z
      <-> MemStorage.getFarm storage farmId <> None)
  /\ (forall id insertEquipment,
        MemStorage.getEquipment storage id = None ->
        is_string (InsertEquipment.farmId insertEquipment) farmId = false ->
        Handler.calculate_environment
          (fst (MemStorage.createEquipment storage id insertEquipment)) body
        = response)
  /\ (forall flockAge,
        Handler.calculate_environment storage
          (Handler.CalculateBody.mk farmId
             (Handler.CalculateBody.outsideTemp body)
             (Handler.CalculateBody.outsideHumidity body)
             (Handler.CalculateBody.windSpeed body) flockAge)
        = response).
Proof.
  cbv zeta. split; [|split; [|split]].
  - unfold Handler.calculate_environment. cbv zeta.
    destruct (MemStorage.getFarm storage (Handler.CalculateBody.farmId body));
      cbn [Handler.Response.status]; split; intro H;
      try reflexivity; discriminate.
  - unfold Handler.calculate_environment. cbv zeta.
    destruct (MemStorage.getFarm storage (Handler.CalculateBody.farmId body));
      cbn [Handler.Response.status]; split; intro H;
      try reflexivity; try discriminate; congruence.
  - intros id insertEquipment Hnew Hother.
    unfold Handler.calculate_environment. cbv zeta.
    rewrite (equipment_of_other_farm storage id insertEquipment _ Hnew Hother).
    reflexivity.
  - reflexivity.
Qed.

Lemma calculate_environment_response_witness :
  Handler.Response.status
    (Handler.calculate_environment MemStorage.empty
       (Handler.CalculateBody.mk "f-1" 22 45 12 (Some 18)))
  = 404%Z.
Proof.
  exact (proj2 (proj1 (calculate_environment_response MemStorage.empty
                         (Handler.CalculateBody.mk "f-1" 22 45 12 (Some 18))))
           eq_refl).
Defined.

(** ** Settings stay in range *)

Lemma setting_in_range_merge (old : Equipment.t) (data : UpdateEquipment.t) :
  setting_in_range old ->
  Handler.updateEquipmentSchema_parse data = Some data ->
  setting_in_range (MemStorage.merge_update old data).
Proof.
  unfold setting_in_range, Handler.updateEquipmentSchema_parse,
    MemStorage.merge_update. cbn [Equipment.currentSetting].
  destruct (UpdateEquipment.currentSetting data) as [setting|]; [|tauto].
  intros _. destruct (Js.ge setting 0) eqn:Hlo; [|discriminate].
  destruct (Js.le setting 100) eqn:Hhi; [|discriminate].
  intros _. order_facts. split; assumption.
Qed.

Lemma Forall_values_set {V : Type} (P : V -> Prop) (m : JsMap.t V)
  (key : string) (value : V) :
  Forall P (JsMap.values m) -> P value ->
  Forall P (JsMap.values (JsMap.set m key value)).
Proof.
  unfold JsMap.values. intros Hm Hv.
  induction m as [|[k v] rest IH]; cbn [JsMap.set map snd].
  - constructor; [exact Hv | constructor].
  - inversion Hm as [|? ? Hhead Hrest]; subst.
    destruct (k =? key)%string; cbn [map snd]; constructor; auto.
Qed.

Lemma Forall_values_get {V : Type} (P : V -> Prop) (m : JsMap.t V)
  (key : string) (value : V) :
  Forall P (JsMap.values m) -> JsMap.get m key = Some value -> P value.
Proof.
  unfold JsMap.values. intros Hm.
  induction m as [|[k v] rest IH]; cbn [JsMap.get]; [discriminate|].
  inversion Hm as [|? ? Hhead Hrest]; subst.
  destruct (k =? key)%string; [intro E; injection E as <-; exact Hhead | auto].
Qed.

(** X23.  [PATCH /api/equipment/:id] cannot take a setting out of range:
    if every stored setting lies in [[0, 100]] before the request, so
    does every stored setting after it, whatever the id and the body.
    A body with a setting outside [[0, 100]] is answered 400 and an
    unknown id 404, and both leave the store as it was. *)
Theorem patch_keeps_settings_in_range (storage : MemStorage.t) (id : string)
  (body : UpdateEquipment.t) :
  let storage' := fst (Handler.patch_equipment storage id body) in
  let response := snd (Handler.patch_equipment storage id body) in
  (Forall setting_in_range (JsMap.values (MemStorage.equipment storage)) ->
   Forall setting_in_range (JsMap.values (MemStorage.equipment storage')))
  /\ (Handler.Response.status response <> 200%Z -> storage' = storage)
  /\ (forall setting,
        UpdateEquipment.currentSetting body = Some setting ->
        setting < 0 \/ 100 < setting ->
        Handler.Response.status response = 400%Z)
  /\ (Handler.updateEquipmentSchema_parse body = Some body ->
      MemStorage.getEquipment storage id = None ->
      Handler.Response.status response = 404%Z).
Proof.
  cbv zeta. unfold Handler.patch_equipment.
  split; [|split; [|split]].
  - intro Hrange.
    destruct (Handler.updateEquipmentSchema_parse body) as [data|] eqn:Hparse;
      [|exact Hrange].
    assert (data = body) as ->.
    { unfold Handler.updateEquipmentSchema_parse in Hparse.
      destruct (UpdateEquipment.currentSetting body);
        [destruct (_ && _)|]; congruence. }
    unfold MemStorage.updateEquipment.
    destruct (JsMap.get (MemStorage.equipment storage) id) as [old|] eqn:Hget;
      cbn [fst MemStorage.with_equipment MemStorage.equipment]; [|exact Hrange].
    apply Forall_values_set; [exact Hrange|].
    apply setting_in_range_merge; [|exact Hparse].
    exact (Forall_values_get _ _ _ _ Hrange Hget).
  - destruct (Handler.updateEquipmentSchema_parse body) as [data|];
      [|reflexivity].
    unfold MemStorage.updateEquipment.
    destruct (JsMap.get (MemStorage.equipment storage) id);
      cbn [fst snd Handler.Response.status]; [congruence | reflexivity].
  - intros setting Hsetting Hout.
    unfold Handler.updateEquipmentSchema_parse. rewrite Hsetting.
    destruct (Js.ge setting 0) eqn:Hlo; destruct (Js.le setting 100) eqn:Hhi;
      cbn [andb snd Handler.Response.status]; try reflexivity.
    exfalso. order_facts. lra.
  - intros Hparse Hget. rewrite Hparse.
    unfold MemStorage.updateEquipment, MemStorage.getEquipment in *.
    rewrite Hget. reflexivity.
Qed.

Lemma patch_keeps_settings_in_range_witness :
  let storage :=
    fst (MemStorage.createEquipment MemStorage.empty "e-1"
           (InsertEquipment.mk (Some "f-1"%string) "fan" "Fan 1" None
              (Some true) (Some 75))) in
  Handler.Response.status
    (snd (Handler.patch_equipment storage "e-1"
            (UpdateEquipment.mk None (Some 120))))
  = 400%Z
  /\ Forall setting_in_range
       (JsMap.values
          (MemStorage.equipment
             (fst (Handler.patch_equipment storage "e-1"
                     (UpdateEquipment.mk None (Some 40)))))).
Proof.
  cbv zeta. split.
  - refine (proj1 (proj2 (proj2
      (patch_keeps_settings_in_range _ "e-1"
         (UpdateEquipment.mk None (Some 120)))))
      120 eq_refl (or_intror _)).
    reflexivity.
  - refine (proj1 (patch_keeps_settings_in_range _ "e-1"
                     (UpdateEquipment.mk None (Some 40))) _).
    repeat constructor; discriminate.
Defined.

(** * The components *)

(** ** Growth projections off the route *)

Lemma hasGoodTemp_received (render : Handler.Message -> string)
  (answer : Handler.Calculations.t) (insideTemp totalHeating : Q) :
  Handler.Calculations.recommendations answer
  = Handler.recommendations insideTemp totalHeating ->
  hasGoodTemp
    (EnvironmentalCalculation.recommendations (Client.received render answer))
  = negb (Js.lt insideTemp 30) && negb (Js.gt insideTemp 32).
Proof.
  intro Hrecs. unfold Client.received.
  cbn [EnvironmentalCalculation.recommendations]. rewrite Hrecs.
  unfold Handler.recommendations, Handler.targetTempMin, Handler.targetTempMax.
  cbn [app].
  destruct (Js.lt insideTemp 30), (Js.gt insideTemp 32),
    (Js.gt totalHeating 10); reflexivity.
Qed.

(** X24.  The growth panel projects from the route's answer.  For any
    answer whose advisories are the handler's for an inside temperature,
    the 15 percent growth penalty and the 0.2 surcharge on the feed
    conversion ratio apply exactly when that temperature is below 30 or
    above 32 degrees, at every flock age. *)
Theorem panel_penalty_band (render : Handler.Message -> string)
  (Math_pow : Q -> Q -> Q) (flock : Flock.t)
  (answer : Handler.Calculations.t) (insideTemp totalHeating : Q) :
  Handler.Calculations.recommendations answer
  = Handler.recommendations insideTemp totalHeating ->
  let projection :=
    calculateGrowthProjections Math_pow flock (Client.received render answer) in
  GrowthProjection.environmentalFactor projection
  == (if Js.lt insideTemp 30 then 0.85
      else if Js.gt insideTemp 32 then 0.85 else 1)
  /\ GrowthProjection.fcr projection
     == 1.2 + inject_Z (Flock.currentAge flock) * 0.01
        + (if Js.lt insideTemp 30 then 0.2
           else if Js.gt insideTemp 32 then 0.2 else 0).
Proof.
  intro Hrecs. cbv zeta.
  pose proof (hasGoodTemp_received render answer insideTemp totalHeating Hrecs)
    as Hgood.
  unfold calculateGrowthProjections.
  cbn [GrowthProjection.environmentalFactor GrowthProjection.fcr].
  unfold Growth.environmentalFactor, Growth.fcr. rewrite !Hgood.
  set (age := Flock.currentAge flock).
  destruct (Js.lt insideTemp 30), (Js.gt insideTemp 32); cbn [negb andb];
    (split; [reflexivity|]);
    first [ apply (round_hundredths (120 + age));
            rewrite inject_Z_plus; change (inject_Z 120) with 120; ring
          | apply (round_hundredths (140 + age));
            rewrite inject_Z_plus; change (inject_Z 140) with 140; ring ].
Qed.

Lemma panel_penalty_band_witness :
  let answer := Handler.calculations sample_farm [] 22 45 12 in
  GrowthProjection.environmentalFactor
    (calculateGrowthProjections sample_pow (sample_flock 18 485)
       (Client.received (fun _ => EmptyString) answer))
  == 0.85.
Proof.
  cbv zeta.
  exact (proj1 (panel_penalty_band (fun _ => EmptyString) sample_pow
                  (sample_flock 18 485)
                  (Handler.calculations sample_farm [] 22 45 12)
                  (Handler.insideTemp_final sample_farm [] 22 12)
                  (Handler.totalHeating []) eq_refl)).
Defined.

(** ** Applying the suggestions *)

Lemma filter_head {A : Type} (f : A -> bool) (rows : list A) (x : A) (rest : list A) :
  filter f rows = x :: rest -> f x = true /\ In x rows.
Proof.
  intro H. assert (Hin : In x (filter f rows)) by (rewrite H; now left).
  apply filter_In in Hin. tauto.
Qed.

Lemma or_num_in_range (eq : Equipment.t) :
  setting_in_range eq ->
  0 <= Js.or_num (Equipment.currentSetting eq) 0 <= 100.
Proof.
  unfold setting_in_range. intro H. rewrite or_num_zero.
  destruct (Equipment.currentSetting eq); [exact H | split; discriminate].
Qed.

Lemma parse_accepts (active : option bool) (setting : Q) :
  0 <= setting <= 100 ->
  Handler.updateEquipmentSchema_parse (UpdateEquipment.mk active (Some setting))
  = Some (UpdateEquipment.mk active (Some setting)).
Proof.
  intros [Hlo Hhi]. unfold Handler.updateEquipmentSchema_parse.
  cbn [UpdateEquipment.currentSetting].
  apply le_spec in Hlo, Hhi. unfold Js.ge. now rewrite Hlo, Hhi.
Qed.

(** Case analysis on the list a [match] inspects. *)
Ltac first_rows H :=
  match goal with
  | |- context [ match ?rows with [] => _ | _ :: _ => _ end ] =>
      destruct rows as [|head others] eqn:H
  end.

Lemma suggestion_sound (action : string) (equipment : list Equipment.t)
  (request : Client.Request) :
  Forall setting_in_range equipment ->
  In request (Client.suggestion action equipment) ->
  Handler.updateEquipmentSchema_parse (request_data request)
  = Some (request_data request)
  /\ UpdateEquipment.isActive (request_data request) <> Some false
  /\ exists row, In row equipment /\ Equipment.id row = request_id request.
Proof.
  intros Hrange. rewrite Forall_forall in Hrange.
  unfold Client.suggestion.
  destruct (action =? "temperature_low")%string;
    [|destruct (action =? "temperature_high")%string; [|intros []]];
    cbv zeta;
    (first_rows Hfirst; [first_rows Hsecond; [intros []|]|]);
    intros [<- | []];
    cbn [request_data request_id UpdateEquipment.isActive];
    (apply filter_head in Hfirst || apply filter_head in Hsecond);
    match goal with
    | H : _ /\ In ?row equipment |- _ =>
        destruct H as [_ Hin];
        pose proof (or_num_in_range row (Hrange row Hin)) as Hs;
        split; [|split; [discriminate | now exists row]]
    end;
    apply parse_accepts; unfold Js.Math_max, Js.Math_min; split;
    first [ discriminate
          | apply Q.le_max_l
          | apply Q.le_min_l
          | apply Qle_trans with 20; [discriminate | apply Q.le_max_l]
          | apply Q.max_lub; [discriminate | lra]
          | apply Q.min_glb; [discriminate | lra] ].
Qed.

(** X25.  When every setting of the equipment list lies in [[0, 100]],
    every request that [applyAISuggestions] sends, for any list of
    advisories, carries a body that [updateEquipmentSchema] accepts (the
    new setting stays in [[0, 100]]), never switches a row off, and is
    addressed to a row of the list. *)
Theorem suggestions_are_valid_patches
  (recommendations : list Recommendation.t) (equipment : list Equipment.t)
  (request : Client.Request) :
  Forall setting_in_range equipment ->
  In request (Client.applyAISuggestions recommendations equipment) ->
  Handler.updateEquipmentSchema_parse (request_data request)
  = Some (request_data request)
  /\ UpdateEquipment.isActive (request_data request) <> Some false
  /\ exists row, In row equipment /\ Equipment.id row = request_id request.
Proof.
  intros Hrange Hin. unfold Client.applyAISuggestions in Hin.
  apply in_flat_map in Hin as (rec & _ & Hin).
  exact (suggestion_sound _ equipment request Hrange Hin).
Qed.

Lemma suggestions_are_valid_patches_witness :
  let equipment := [fan_row 120 75 true; heater_row 15 45 true] in
  let request :=
    Client.PATCH "e-fan" (UpdateEquipment.mk None (Some (Qmax 20 (75 - 20)))) in
  Handler.updateEquipmentSchema_parse (request_data request)
  = Some (request_data request).
Proof.
  cbv zeta.
  assert (Hrange : Forall setting_in_range
                     [fan_row 120 75 true; heater_row 15 45 true]).
  { repeat constructor; discriminate. }
  refine (proj1 (suggestions_are_valid_patches
                   (generateRecommendations 20 60 18 0 0
                      [fan_row 120 75 true; heater_row 15 45 true])
                   [fan_row 120 75 true; heater_row 15 45 true]
                   _ Hrange _)).
  left. reflexivity.
Defined.

Lemma suggestion_at_most_one (action : string) (equipment : list Equipment.t) :
  (List.length (Client.suggestion action equipment) <= 1)%nat.
Proof.
  unfold Client.suggestion.
  destruct (action =? "temperature_low")%string;
    [|destruct (action =? "temperature_high")%string]; cbv zeta;
    repeat match goal with
    | |- context [ match ?l with [] => _ | _ :: _ => _ end ] => destruct l
    end; cbn [List.length]; lia.
Qed.

(** X26.  On the advisories of one answer of the route,
    [applyAISuggestions] sends at most one request: for any answer whose
    advisories are the handler's for an inside temperature, it sends what
    [temperature_low] calls for when that temperature is below 30
    degrees, what [temperature_high] calls for when it is above 32, and
    nothing otherwise; [optimize_energy] triggers nothing. *)
Theorem one_answer_one_request (render : Handler.Message -> string)
  (answer : Handler.Calculations.t) (insideTemp totalHeating : Q)
  (shown : list Equipment.t) :
  Handler.Calculations.recommendations answer
  = Handler.recommendations insideTemp totalHeating ->
  let recommendations :=
    EnvironmentalCalculation.recommendations (Client.received render answer) in
  (List.length (Client.applyAISuggestions recommendations shown) <= 1)%nat
  /\ Client.applyAISuggestions recommendations shown
     = (if Js.lt insideTemp 30 then Client.suggestion "temperature_low" shown
        else if Js.gt insideTemp 32
             then Client.suggestion "temperature_high" shown
             else []).
Proof.
  intro Hrecs. cbv zeta. unfold Client.received.
  cbn [EnvironmentalCalculation.recommendations]. rewrite Hrecs.
  unfold Handler.recommendations, Handler.targetTempMin, Handler.targetTempMax.
  cbn [app]. unfold Client.applyAISuggestions.
  destruct (Js.lt insideTemp 30), (Js.gt insideTemp 32),
    (Js.gt totalHeating 10);
    cbn [negb andb map flat_map Recommendation.action Handler.Advisory.action app];
    change (Client.suggestion "optimize_energy" shown) with (@nil Client.Request);
    change (Client.suggestion "temperature_good" shown) with (@nil Client.Request);
    rewrite ?app_nil_r; cbn [app List.length];
    split; try reflexivity; try lia; apply suggestion_at_most_one.
Qed.

Lemma one_answer_one_request_witness :
  let answer := Handler.calculations sample_farm [] 22 45 12 in
  let shown := [fan_row 120 75 true; heater_row 15 45 false] in
  Client.applyAISuggestions
    (EnvironmentalCalculation.recommendations
       (Client.received (fun _ => EmptyString) answer)) shown
  = [ Client.PATCH "e-heater" (UpdateEquipment.mk (Some true) (Some 50)) ].
Proof.
  cbv zeta.
  exact (proj2 (one_answer_one_request (fun _ => EmptyString)
                  (Handler.calculations sample_farm [] 22 45 12)
                  (Handler.insideTemp_final sample_farm [] 22 12)
                  (Handler.totalHeating [])
                  [fan_row 120 75 true; heater_row 15 45 false] eq_refl)).
Defined.

(** ** The gauge's band *)

Lemma ageKey_whole (age : Z) : ageKey (inject_Z age) = (age / 7 * 7)%Z.
Proof.
  unfold ageKey, Js.Math_floor. f_equal.
  symmetry. exact (Zdiv_Qdiv age 7).
Qed.

(** X27.  The band the temperature gauge is drawn against is the
    recommendation generator's band for the flock's age exactly for the
    ages 1 to 6 and 14 to 34 days: at those ages, and at no other whole
    age, the gauge's minimum equals [tempMin] and its maximum [tempMax]
    of [AGE_TARGETS]. *)
Theorem gauge_band_agrees (age : Z) :
  (Client.targetTempMin (Some age)
   == Targets.tempMin (targets_for (inject_Z age))
   <-> (1 <= age <= 6 \/ 14 <= age <= 34)%Z)
  /\ (Client.targetTempMax (Some age)
      == Targets.tempMax (targets_for (inject_Z age))
      <-> (1 <= age <= 6 \/ 14 <= age <= 34)%Z).
Proof.
  unfold Client.targetTempMax, Client.targetTempMin, targets_for.
  rewrite ageKey_whole.
  pose proof (Z.div_mod age 7 ltac:(discriminate)) as Hdiv.
  pose proof (Z.mod_pos_bound age 7 ltac:(reflexivity)) as Hmod.
  set (week := (age / 7)%Z) in *. set (day := (age mod 7)%Z) in *.
  unfold AGE_TARGETS. cbn [lookup_targets].
  destruct (Z.eqb_spec age 0);
    repeat match goal with
    | |- context [ (age <? ?k)%Z ] => destruct (Z.ltb_spec age k)
    end;
    repeat match goal with
    | |- context [ (?k =? week * 7)%Z ] => destruct (Z.eqb_spec k (week * 7))
    end;
    try (exfalso; lia);
    cbn [Targets.tempMin Targets.tempMax AGE_TARGETS_35];
    split; (split;
      [ intro Heq; first [ lia | exfalso; vm_compute in Heq; discriminate Heq ]
      | intro Hrange; first [ reflexivity | exfalso; lia ] ]).
Qed.

Lemma gauge_band_agrees_witness :
  Client.targetTempMin (Some 18%Z) == Targets.tempMin (targets_for (inject_Z 18)).
Proof.
  apply (proj1 (gauge_band_agrees 18)). right. split; discriminate.
Defined.

Lemma gauge_range (currentAge : option Z) :
  Client.targetTempMax currentAge - Client.targetTempMin currentAge == 3.
Proof. unfold Client.targetTempMax. ring. Qed.

(** X28.  The gauge's fill is a whole percentage between 0 and 100: it
    is 0 up to the band's minimum, 100 from the band's maximum on, and
    never falls as the temperature rises. *)
Theorem gauge_fill (currentAge : option Z) (temp warmer : Q) :
  (0 <= Client.getTemperatureProgress currentAge temp <= 100)%Z
  /\ (temp <= Client.targetTempMin currentAge ->
      Client.getTemperatureProgress currentAge temp = 0%Z)
  /\ (Client.targetTempMax currentAge <= temp ->
      Client.getTemperatureProgress currentAge temp = 100%Z)
  /\ (temp <= warmer ->
      (Client.getTemperatureProgress currentAge temp
       <= Client.getTemperatureProgress currentAge warmer)%Z).
Proof.
  unfold Client.getTemperatureProgress. cbv zeta.
  pose proof (gauge_range currentAge) as Hrange.
  unfold Js.Math_max, Js.Math_min.
  assert (Hraw : forall t,
    (t - Client.targetTempMin currentAge)
    / (Client.targetTempMax currentAge - Client.targetTempMin currentAge) * 100
    == (t - Client.targetTempMin currentAge) * (100 # 3)).
  { intro t. rewrite Hrange. field. }
  split; [|split; [|split]].
  - split.
    + apply Z.le_trans with (Js.Math_round 0); [discriminate|].
      apply Math_round_mono, Q.le_max_l.
    + apply Z.le_trans with (Js.Math_round 100); [|discriminate].
      apply Math_round_mono. apply Q.max_lub; [discriminate | apply Q.le_min_l].
  - intro H. apply Math_round_Z. rewrite Hraw.
    change (inject_Z 0) with 0. apply Q.max_l.
    apply Qle_trans with ((temp - Client.targetTempMin currentAge) * (100 # 3));
      [apply Q.le_min_r | lra].
  - intro H. apply Math_round_Z. rewrite Hraw.
    change (inject_Z 100) with 100.
    unfold Client.targetTempMax in H.
    rewrite Q.min_l by lra. apply Q.max_r. discriminate.
  - intro H. apply Math_round_mono. rewrite !Hraw.
    apply Q.max_le_compat_l, Q.min_le_compat_l. lra.
Qed.

Lemma gauge_fill_witness :
  Client.getTemperatureProgress (Some 18%Z) 20 = 0%Z
  /\ Client.getTemperatureProgress (Some 18%Z) 31 = 100%Z.
Proof.
  split.
  - apply (proj1 (proj2 (gauge_fill (Some 18%Z) 20 20))). discriminate.
  - apply (proj1 (proj2 (proj2 (gauge_fill (Some 18%Z) 31 31)))). discriminate.
Defined.
